(** * gke-operator: cluster deletion and the security compliance validator

    A shallow embedding of [pkg/gke/delete.go] ([RemoveCluster],
    [RemoveNodePool]) and of the two helpers of
    [pkg/gke/security_compliance_test.go] ([validateSecurityCompliance],
    [needsSecurityCompliance]), with the properties the specification states
    about them.

    Conventions.
    - A Go pointer that may be nil is an [option]; a Go map that may be nil is
      an [option] of a [gmap]; a slice is a [list].
    - A Go [error] value is an [option error]: [None] is the nil error.
    - The outside world (remote control plane, context, clock) is an abstract
      state that every effectful operation threads; each effect is also
      appended to a trace, so that the number of remote calls of a run can be
      counted. *)

From Stdlib Require Import String List ZArith Lia Bool DecimalString DecimalNat.
From stdpp Require Import gmap strings.
Import ListNotations.

Local Open Scope string_scope.

(** ** Strings *)

(** [strings.Contains s substr]: [substr] occurs somewhere in [s]. *)
Fixpoint Contains (s substr : string) : bool :=
  String.prefix substr s ||
  match s with
  | EmptyString => false
  | String _ t => Contains t substr
  end.

(** The [%d] verb of [fmt] on a non-negative integer. *)
Definition fmt_d (n : nat) : string := NilEmpty.string_of_uint (Nat.to_uint n).

Example fmt_d_12 : fmt_d 12 = "12".
Proof. reflexivity. Qed.

(** ** Errors *)

(** The error values that flow through the package.  [errorString] stands for
    every error that is identified by its message alone: the results of
    [fmt.Errorf] and the errors the remote client returns.  The other three are
    the sentinels of [k8s.io/apimachinery/pkg/util/wait] and of [context],
    which callers recognise by identity. *)
Inductive error : Type :=
| errorString (msg : string)
| ErrWaitTimeout
| Canceled
| DeadlineExceeded.

(** [err.Error()]. *)
Definition Error (e : error) : string :=
  match e with
  | errorString msg => msg
  | ErrWaitTimeout => "timed out waiting for the condition"
  | Canceled => "context canceled"
  | DeadlineExceeded => "context deadline exceeded"
  end.

Module fmt.
(** [fmt.Errorf], applied to the message already formatted. *)
Definition Errorf (msg : string) : option error := Some (errorString msg).
End fmt.

(** ** The cluster configuration (package [gkev1]) *)

(** Modelled from the spec: the [gkev1] types are declared outside the files
    at hand; each record has the fields that the functions below read, with
    the optionality that their nil checks show. *)
Record GKEPrivateClusterConfig := {
  EnablePrivateNodes : bool;
  EnablePrivateEndpoint : bool;
  MasterIpv4CidrBlock : string
}.

Record GKEBinaryAuthorization := { BinaryAuthorization_Enabled : bool }.
Record GKEShieldedNodes := { ShieldedNodes_Enabled : bool }.
Record GKELegacyAbac := { LegacyAbac_Enabled : bool }.
Record GKEClientCertificateConfig := { IssueClientCertificate : bool }.

Record GKEMasterAuth := {
  Username : string;
  Password : string;
  ClientCertificateConfig : option GKEClientCertificateConfig
}.

Record GKEDatabaseEncryption := { State : string; KeyName : string }.

Record GKEShieldedInstanceConfig := {
  EnableIntegrityMonitoring : bool;
  EnableSecureBoot : bool
}.

Record GKEWorkloadMetadataConfig := { Mode : string }.

Record GKENodeConfig := {
  ShieldedInstanceConfig : option GKEShieldedInstanceConfig;
  WorkloadMetadataConfig : option GKEWorkloadMetadataConfig
}.

Record GKENodePoolConfig := {
  Name : option string;
  Config : option GKENodeConfig
}.

Record GKEClusterConfigSpec := {
  ProjectID : string;
  Region : string;
  Zone : string;
  ClusterName : string;
  EnableKubernetesAlpha : option bool;
  Labels : option (gmap string string);
  PrivateClusterConfig : option GKEPrivateClusterConfig;
  BinaryAuthorization : option GKEBinaryAuthorization;
  ShieldedNodes : option GKEShieldedNodes;
  LegacyAbac : option GKELegacyAbac;
  MasterAuth : option GKEMasterAuth;
  DatabaseEncryption : option GKEDatabaseEncryption;
  NodePools : list GKENodePoolConfig
}.

Record ObjectMeta := {
  ObjectMeta_Name : string;
  Annotations : option (gmap string string)
}.

Record GKEClusterConfig := {
  Meta : ObjectMeta;
  Spec : GKEClusterConfigSpec
}.

(** ** The security compliance validator *)

Module Compliance.

(** [p == nil || !p.field]: the field of an optional struct, false when the
    struct is absent. *)
Definition enabled {A} (f : A -> bool) (p : option A) : bool :=
  match p with
  | None => false
  | Some x => f x
  end.

(** The body of the [for i, nodePool := range config.Spec.NodePools] loop of
    [validateSecurityCompliance]: the violation of pool [i], if any. *)
Definition checkNodePool (i : nat) (nodePool : GKENodePoolConfig) : option error :=
  match Config nodePool with
  | None =>
      fmt.Errorf ("node pool " ++ fmt_d i ++ " config cannot be nil for security compliance")
  | Some cfg =>
      if match ShieldedInstanceConfig cfg with
         | None => true
         | Some sic => negb (EnableIntegrityMonitoring sic) || negb (EnableSecureBoot sic)
         end
      then fmt.Errorf ("node pool " ++ fmt_d i ++
                   " must have shielded instance config with integrity monitoring and secure boot enabled")
      else if match WorkloadMetadataConfig cfg with
              | None => true
              | Some wmc => negb (String.eqb (Mode wmc) "GKE_METADATA")
              end
      then fmt.Errorf ("node pool " ++ fmt_d i ++ " must use GKE_METADATA mode for security compliance")
      else None
  end.

(** The loop itself, from index [i] on: it returns at the first pool with a
    violation. *)
Fixpoint checkNodePools (i : nat) (pools : list GKENodePoolConfig) : option error :=
  match pools with
  | [] => None
  | nodePool :: rest =>
      match checkNodePool i nodePool with
      | Some e => Some e
      | None => checkNodePools (S i) rest
      end
  end.

(** [validateSecurityCompliance]: the first violation of the checklist, or
    nil. *)
Definition validateSecurityCompliance (config : GKEClusterConfig) : option error :=
  let spec := Spec config in
  if match EnableKubernetesAlpha spec with Some b => b | None => false end
  then fmt.Errorf "alpha features must be disabled for security compliance"
  else if negb (enabled EnablePrivateNodes (PrivateClusterConfig spec))
  then fmt.Errorf "private nodes must be enabled for security compliance"
  else if negb (enabled BinaryAuthorization_Enabled (BinaryAuthorization spec))
  then fmt.Errorf "binary authorization must be enabled for security compliance"
  else if negb (enabled ShieldedNodes_Enabled (ShieldedNodes spec))
  then fmt.Errorf "shielded nodes must be enabled for security compliance"
  else if match LegacyAbac spec with Some abac => LegacyAbac_Enabled abac | None => false end
  then fmt.Errorf "legacy ABAC must be disabled for security compliance"
  else
    match
      match MasterAuth spec with
      | Some auth =>
          if negb (String.eqb (Username auth) "") || negb (String.eqb (Password auth) "")
          then fmt.Errorf "basic authentication must be disabled for security compliance"
          else if match ClientCertificateConfig auth with
                  | Some ccc => IssueClientCertificate ccc
                  | None => false
                  end
          then fmt.Errorf "client certificate issuance must be disabled for security compliance"
          else None
      | None => None
      end
    with
    | Some e => Some e
    | None =>
        if match DatabaseEncryption spec with
           | None => true
           | Some de => negb (String.eqb (State de) "ENCRYPTED")
           end
        then fmt.Errorf "database encryption must be enabled for security compliance"
        else checkNodePools 0 (NodePools spec)
    end.

(** [needsSecurityCompliance]: whether the configuration asks for the
    validator, through a label or an annotation.  A lookup in a Go map gives
    the value and whether the key exists; [!!] gives both as an [option]. *)
Definition needsSecurityCompliance (config : GKEClusterConfig) : bool :=
  if match Labels (Spec config) with
     | Some labels =>
         match labels !! "compliance" with
         | Some compliance => String.eqb compliance "security"
         | None => false
         end
     | None => false
     end
  then true
  else if match Annotations (Meta config) with
          | Some annotations =>
              match annotations !! "gke.cattle.io/security-compliance" with
              | Some compliance => String.eqb compliance "true"
              | None => false
              end
          | None => false
          end
  then true
  else false.

End Compliance.

(** ** Effects: the outside world and the trace *)

(** What the package takes from its other files: the two error markers and
    the builders of relative resource names.  Their values are not needed: the
    functions below only compare and pass them on. *)
Class Package := {
  errWait : string;
  errNotFound : string;
  Location : string -> string -> string;
  ClusterRRN : string -> string -> string -> string;
  NodePoolRRN : string -> string -> string -> string -> string
}.

(** The collaborators of a call, over an abstract state [Env] of the outside
    world: the context ([ctxErr] is [ctx.Err()], non-nil exactly when
    [ctx.Done()] is closed), the [services.GKEClusterService] client, whose
    operation handle is discarded by both callers, and [time.Sleep]. *)
Class Runtime (Env : Type) := {
  ctxErr : Env -> option error;
  ClusterDelete : string -> Env -> option error * Env;
  NodePoolDelete : string -> Env -> option error * Env;
  Sleep : Z -> Env -> Env
}.

Inductive Level := InfoLevel | ErrorLevel.

Inductive Event :=
| EvLog (lvl : Level) (msg : string)
| EvClusterDelete (rrn : string)
| EvNodePoolDelete (rrn : string)
| EvSleep (d : Z).

(** The state that effectful code threads: the outside world, and the trace of
    the effects so far, newest first. *)
Record World (Env : Type) := mkWorld { env : Env; trace : list Event }.
Arguments mkWorld {Env} _ _.
Arguments env {Env} _.
Arguments trace {Env} _.

(** Number of remote delete calls in a trace. *)
Fixpoint remote_calls (t : list Event) : nat :=
  match t with
  | [] => 0
  | EvClusterDelete _ :: t' | EvNodePoolDelete _ :: t' => S (remote_calls t')
  | _ :: t' => remote_calls t'
  end.

(** The durations slept in a trace, newest first. *)
Fixpoint sleeps (t : list Event) : list Z :=
  match t with
  | [] => []
  | EvSleep d :: t' => d :: sleeps t'
  | _ :: t' => sleeps t'
  end.

(** A state monad over [World]. *)
Definition M (Env A : Type) : Type := World Env -> A * World Env.

Definition ret {Env A} (x : A) : M Env A := fun w => (x, w).

Definition bind {Env A B} (m : M Env A) (k : A -> M Env B) : M Env B :=
  fun w => let (x, w') := m w in k x w'.

Declare Scope m_scope.
Delimit Scope m_scope with M.
Notation "x <- m ;; k" := (bind m (fun x => k))
  (at level 100, m at next level, right associativity) : m_scope.
Notation "m ;; k" := (bind m (fun _ => k))
  (at level 100, right associativity) : m_scope.

Definition emit {Env} (ev : Event) : M Env unit :=
  fun w => (tt, mkWorld (env w) (ev :: trace w)).

Module logrus.
Definition Infof {Env} (msg : string) : M Env unit := emit (EvLog InfoLevel msg).
Definition Errorf {Env} (msg : string) : M Env unit := emit (EvLog ErrorLevel msg).
End logrus.

Section Effects.
Context {Env : Type} {rt : Runtime Env}.

(** [select { case <-ctx.Done(): ... default: }]: the context's error if it
    is done, without waiting. *)
Definition ctxDone : M Env (option error) := fun w => (ctxErr (env w), w).

Definition gkeClient_ClusterDelete (rrn : string) : M Env (option error) :=
  fun w => let (err, e') := ClusterDelete rrn (env w) in
           (err, mkWorld e' (EvClusterDelete rrn :: trace w)).

Definition gkeClient_NodePoolDelete (rrn : string) : M Env (option error) :=
  fun w => let (err, e') := NodePoolDelete rrn (env w) in
           (err, mkWorld e' (EvNodePoolDelete rrn :: trace w)).

Definition time_Sleep (d : Z) (w : World Env) : World Env :=
  mkWorld (Sleep d (env w)) (EvSleep d :: trace w).
End Effects.

(** ** [k8s.io/apimachinery/pkg/util/wait] *)

Module wait.

(** [wait.Backoff], with the two fields that [delete.go] sets.  [Factor],
    [Jitter] and [Cap] keep their zero values there, for which [Step] neither
    scales nor jitters nor caps the duration. *)
Record Backoff := { Duration : Z; Steps : Z }.

(** [Backoff.Step], a method on the pointer: the next duration to sleep,
    and the receiver after the call. *)
Definition Step (b : Backoff) : Z * Backoff :=
  if (Steps b <? 1)%Z then (Duration b, b)
  else (Duration b, {| Duration := Duration b; Steps := Steps b - 1 |}).

(** The loop of [wait.ExponentialBackoff]:
<<
    for backoff.Steps > 0 {
      if ok, err := condition(); err != nil || ok { return err }
      if backoff.Steps == 1 { break }
      time.Sleep(backoff.Step())
    }
    return ErrWaitTimeout
>>
    over any state [St] that the condition and the sleep act on.  [fuel]
    bounds the iterations; [None] is fuel running out. *)
Fixpoint ExponentialBackoff_loop {St : Type} (sleep : Z -> St -> St) (fuel : nat)
    (b : Backoff) (condition : St -> (bool * option error) * St) (st : St)
    : option (option error * St) :=
  match fuel with
  | O => None
  | S fuel' =>
      if (0 <? Steps b)%Z then
        let '((ok, err), st1) := condition st in
        if match err with Some _ => true | None => false end || ok
        then Some (err, st1)
        else if (Steps b =? 1)%Z then Some (Some ErrWaitTimeout, st1)
        else let (d, b') := Step b in
             ExponentialBackoff_loop sleep fuel' b' condition (sleep d st1)
      else Some (Some ErrWaitTimeout, st)
  end.

(** Each iteration lowers [Steps] by one, so [Steps + 1] iterations are
    enough ([ExponentialBackoff_total] below). *)
Definition ExponentialBackoff {St : Type} (sleep : Z -> St -> St)
    (b : Backoff) (condition : St -> (bool * option error) * St) (st : St)
    : option (option error * St) :=
  ExponentialBackoff_loop sleep (S (Z.to_nat (Steps b))) b condition st.

End wait.

(** ** [delete.go] *)

(** Modelled from the spec: the outcome of a node-pool operation, [Status],
    is declared outside the files at hand: one of Changed, NotChanged,
    Retry. *)
Inductive Status := Changed | Retry | NotChanged.

Definition waitSec : Z := 30.
Definition backoffSteps : Z := 12.

(** [time.Second], in nanoseconds. *)
Definition Second : Z := 1000000000.

Definition backoff : wait.Backoff :=
  {| wait.Duration := waitSec * Second; wait.Steps := backoffSteps |}.

Section Delete.
Context {pkg : Package} {Env : Type} {rt : Runtime Env}.
Local Open Scope m_scope.

(** The condition closure of [RemoveCluster].  It captures [attempt], which
    it increments: the closure takes the value before the call and returns
    the value after it, with the closure's own result. *)
Definition RemoveCluster_condition (clusterRRN : string) (attempt0 : nat)
    : M Env (nat * (bool * option error)) :=
  let attempt := S attempt0 in
  logrus.Infof ("[DEBUG] RemoveCluster attempt " ++ fmt_d attempt ++ " for " ++ clusterRRN) ;;
  done <- ctxDone ;;
  match done with
  | Some cerr =>
      logrus.Errorf ("[DEBUG] Context cancelled before ClusterDelete call (attempt "
                     ++ fmt_d attempt ++ ") for " ++ clusterRRN ++ ": " ++ Error cerr) ;;
      ret (attempt, (false, Some cerr))
  | None =>
      logrus.Infof ("[DEBUG] Calling ClusterDelete for " ++ clusterRRN
                    ++ " (attempt " ++ fmt_d attempt ++ ")") ;;
      err <- gkeClient_ClusterDelete clusterRRN ;;
      match err with
      | Some e =>
          logrus.Errorf ("[DEBUG] ClusterDelete returned error for " ++ clusterRRN
                         ++ " (attempt " ++ fmt_d attempt ++ "): " ++ Error e)
      | None =>
          logrus.Infof ("[DEBUG] ClusterDelete succeeded for " ++ clusterRRN
                        ++ " (attempt " ++ fmt_d attempt ++ ")")
      end ;;
      match err with
      | Some e =>
          if Contains (Error e) errWait then
            logrus.Infof ("[DEBUG] Cluster " ++ clusterRRN ++ " is busy, retrying (attempt "
                          ++ fmt_d attempt ++ ")") ;;
            ret (attempt, (false, None))
          else if Contains (Error e) errNotFound then
            logrus.Infof ("[DEBUG] Cluster " ++ clusterRRN
                          ++ " not found, considering deletion successful (attempt "
                          ++ fmt_d attempt ++ ")") ;;
            ret (attempt, (true, None))
          else
            logrus.Errorf ("[DEBUG] Permanent error deleting cluster " ++ clusterRRN
                           ++ " (attempt " ++ fmt_d attempt ++ "): " ++ Error e) ;;
            ret (attempt, (false, Some e))
      | None =>
          logrus.Infof ("[DEBUG] Successfully deleted cluster " ++ clusterRRN
                        ++ " (attempt " ++ fmt_d attempt ++ ")") ;;
          ret (attempt, (true, None))
      end
  end.

(** The closure as [wait.ExponentialBackoff] sees it: a step on the pair of
    the captured counter and the world. *)
Definition RemoveCluster_closure (clusterRRN : string) (st : nat * World Env)
    : (bool * option error) * (nat * World Env) :=
  let '((attempt, r), w') := RemoveCluster_condition clusterRRN (fst st) (snd st) in
  (r, (attempt, w')).

(** [time.Sleep] inside the loop leaves the captured counter alone. *)
Definition RemoveCluster_sleep (d : Z) (st : nat * World Env) : nat * World Env :=
  (fst st, time_Sleep d (snd st)).

(** The loop of [RemoveCluster] from an intermediate state: the backoff
    value, the counter and the world as they are when an attempt starts. *)
Definition RemoveCluster_from (b : wait.Backoff) (clusterRRN : string)
    (st : nat * World Env) : option (option error * World Env) :=
  match wait.ExponentialBackoff RemoveCluster_sleep b (RemoveCluster_closure clusterRRN) st with
  | Some (err, (_, w')) => Some (err, w')
  | None => None
  end.

(** [RemoveCluster]: the error it returns and the world it leaves, or [None]
    if the loop ran out of fuel (it does not: [from_bounded]). *)
Definition RemoveCluster (config : GKEClusterConfig) (w : World Env)
    : option (option error * World Env) :=
  let clusterRRN :=
    ClusterRRN (ProjectID (Spec config))
               (Location (Region (Spec config)) (Zone (Spec config)))
               (ClusterName (Spec config)) in
  let (_, w0) := logrus.Infof ("[DEBUG] Starting RemoveCluster for " ++ clusterRRN) w in
  RemoveCluster_from backoff clusterRRN (0, w0).

(** [RemoveNodePool]. *)
Definition RemoveNodePool (config : GKEClusterConfig) (nodePoolName : string)
    : M Env (Status * option error) :=
  err <- gkeClient_NodePoolDelete
           (NodePoolRRN (ProjectID (Spec config))
                        (Location (Region (Spec config)) (Zone (Spec config)))
                        (ClusterName (Spec config)) nodePoolName) ;;
  match err with
  | Some e =>
      if Contains (Error e) errWait then ret (Retry, None)
      else if Contains (Error e) errNotFound then ret (NotChanged, None)
      else ret (NotChanged, Some e)
  | None => ret (Changed, None)
  end.
End Delete.

(** ** The specification's vocabulary *)

(** The checklist of the validator, as the specification words it.  These
    definitions follow the specification, not the code; the theorems below
    compare the two. *)
Module Checklist.

Inductive Rule :=
| AlphaDisabled
| PrivateNodes
| BinaryAuthorizationOn
| ShieldedNodesOn
| LegacyAbacOff
| MasterAuthClean
| DatabaseEncrypted
| NodePoolsHardened.

(** The fixed checklist order. *)
Definition all_rules : list Rule :=
  [AlphaDisabled; PrivateNodes; BinaryAuthorizationOn; ShieldedNodesOn;
   LegacyAbacOff; MasterAuthClean; DatabaseEncrypted; NodePoolsHardened].

Definition rank (r : Rule) : nat :=
  match r with
  | AlphaDisabled => 1
  | PrivateNodes => 2
  | BinaryAuthorizationOn => 3
  | ShieldedNodesOn => 4
  | LegacyAbacOff => 5
  | MasterAuthClean => 6
  | DatabaseEncrypted => 7
  | NodePoolsHardened => 8
  end.

(** No basic authentication: username and password both empty. *)
Definition no_basic_auth (auth : GKEMasterAuth) : bool :=
  String.eqb (Username auth) "" && String.eqb (Password auth) "".

(** Client-certificate issuance, if configured, is disabled. *)
Definition no_client_cert (auth : GKEMasterAuth) : bool :=
  match ClientCertificateConfig auth with
  | None => true
  | Some ccc => negb (IssueClientCertificate ccc)
  end.

(** A node pool has a configuration, shielded-instance settings with both
    integrity monitoring and secure boot enabled, and workload-metadata mode
    GKE_METADATA. *)
Definition pool_ok (p : GKENodePoolConfig) : bool :=
  match Config p with
  | None => false
  | Some cfg =>
      match ShieldedInstanceConfig cfg with
      | None => false
      | Some sic => EnableIntegrityMonitoring sic && EnableSecureBoot sic
      end &&
      match WorkloadMetadataConfig cfg with
      | None => false
      | Some wmc => String.eqb (Mode wmc) "GKE_METADATA"
      end
  end.

(** Whether a snapshot satisfies a rule. *)
Definition holds (r : Rule) (c : GKEClusterConfig) : bool :=
  let spec := Spec c in
  match r with
  | AlphaDisabled =>
      match EnableKubernetesAlpha spec with None => true | Some b => negb b end
  | PrivateNodes =>
      match PrivateClusterConfig spec with None => false | Some p => EnablePrivateNodes p end
  | BinaryAuthorizationOn =>
      match BinaryAuthorization spec with
      | None => false
      | Some b => BinaryAuthorization_Enabled b
      end
  | ShieldedNodesOn =>
      match ShieldedNodes spec with None => false | Some s => ShieldedNodes_Enabled s end
  | LegacyAbacOff =>
      match LegacyAbac spec with None => true | Some a => negb (LegacyAbac_Enabled a) end
  | MasterAuthClean =>
      match MasterAuth spec with
      | None => true
      | Some auth => no_basic_auth auth && no_client_cert auth
      end
  | DatabaseEncrypted =>
      match DatabaseEncryption spec with
      | None => false
      | Some de => String.eqb (State de) "ENCRYPTED"
      end
  | NodePoolsHardened => forallb pool_ok (NodePools spec)
  end.

(** A snapshot is compliant when it satisfies all eight rules. *)
Definition compliant (c : GKEClusterConfig) : bool :=
  forallb (fun r => holds r c) all_rules.

(** The earliest broken rule in checklist order, if any. *)
Definition first_broken (c : GKEClusterConfig) : option Rule :=
  find (fun r => negb (holds r c)) all_rules.

(** The violation that the validator reports for a broken rule: the message is
    the one of the code; for the node pools it is the report of the loop. *)
Definition violation_of (r : Rule) (c : GKEClusterConfig) : option error :=
  match r with
  | AlphaDisabled => fmt.Errorf "alpha features must be disabled for security compliance"
  | PrivateNodes => fmt.Errorf "private nodes must be enabled for security compliance"
  | BinaryAuthorizationOn =>
      fmt.Errorf "binary authorization must be enabled for security compliance"
  | ShieldedNodesOn => fmt.Errorf "shielded nodes must be enabled for security compliance"
  | LegacyAbacOff => fmt.Errorf "legacy ABAC must be disabled for security compliance"
  | MasterAuthClean =>
      match MasterAuth (Spec c) with
      | Some auth =>
          if no_basic_auth auth
          then fmt.Errorf "client certificate issuance must be disabled for security compliance"
          else fmt.Errorf "basic authentication must be disabled for security compliance"
      | None => None
      end
  | DatabaseEncrypted => fmt.Errorf "database encryption must be enabled for security compliance"
  | NodePoolsHardened => Compliance.checkNodePools 0 (NodePools (Spec c))
  end.

(** The compliance predicate, as the specification words it. *)
Definition compliance_required (c : GKEClusterConfig) : Prop :=
  (exists labels, Labels (Spec c) = Some labels /\
                  labels !! "compliance" = Some "security") \/
  (exists annotations, Annotations (Meta c) = Some annotations /\
                       annotations !! "gke.cattle.io/security-compliance" = Some "true").

End Checklist.

(** The Error Classifier of the specification.  The code has no such
    function: both callers inline the same chain of tests, in this order. *)
Inductive Classification := NoError | Busy | Absent | Fatal.

Section Classifier.
Context {pkg : Package}.

Definition classify (err : option error) : Classification :=
  match err with
  | None => NoError
  | Some e =>
      if Contains (Error e) errWait then Busy
      else if Contains (Error e) errNotFound then Absent
      else Fatal
  end.

(** What one attempt of the cluster delete does with the remote call's
    error, by classification: whether the loop is done, and its error. *)
Definition cluster_outcome (err : option error) : bool * option error :=
  match classify err with
  | NoError => (true, None)
  | Busy => (false, None)
  | Absent => (true, None)
  | Fatal => (false, err)
  end.

(** What the node pool delete returns, by classification. *)
Definition pool_outcome (err : option error) : Status * option error :=
  match classify err with
  | NoError => (Changed, None)
  | Busy => (Retry, None)
  | Absent => (NotChanged, None)
  | Fatal => (NotChanged, err)
  end.

(** The resource names that the two functions address. *)
Definition clusterRRN_of (config : GKEClusterConfig) : string :=
  ClusterRRN (ProjectID (Spec config))
             (Location (Region (Spec config)) (Zone (Spec config)))
             (ClusterName (Spec config)).

Definition nodePoolRRN_of (config : GKEClusterConfig) (nodePoolName : string) : string :=
  NodePoolRRN (ProjectID (Spec config))
              (Location (Region (Spec config)) (Zone (Spec config)))
              (ClusterName (Spec config)) nodePoolName.
End Classifier.

(** Scenarios of the remote client and the context. *)
Section Scenarios.
Context {pkg : Package} {Env : Type} {rt : Runtime Env}.

(** The context is never done. *)
Definition never_cancelled : Prop := forall e : Env, ctxErr e = None.

(** Every cluster delete is answered by a busy error. *)
Definition always_busy : Prop :=
  forall rrn (e : Env), classify (fst (ClusterDelete rrn e)) = Busy.

(** From the world [e], with [d] slept between attempts: the context is
    live at each of the next [n + 1] attempts, the remote client answers
    the first [n] cluster deletes by a busy error and the next by nil. *)
Fixpoint busy_then_ok (rrn : string) (d : Z) (n : nat) (e : Env) : Prop :=
  ctxErr e = None /\
  match n with
  | O => fst (ClusterDelete rrn e) = None
  | S n' =>
      classify (fst (ClusterDelete rrn e)) = Busy /\
      busy_then_ok rrn d n' (Sleep d (snd (ClusterDelete rrn e)))
  end.
End Scenarios.

(** ** Concrete collaborators, for running the code *)

Module Example.

(** A choice of markers and of resource names. *)
#[local] Instance package : Package := {|
  errWait := "Please wait and try again once it is done";
  errNotFound := "notFound";
  Location := fun region zone => if String.eqb region "" then zone else region;
  ClusterRRN := fun project location cluster =>
    "projects/" ++ project ++ "/locations/" ++ location ++ "/clusters/" ++ cluster;
  NodePoolRRN := fun project location cluster pool =>
    "projects/" ++ project ++ "/locations/" ++ location ++ "/clusters/" ++ cluster
    ++ "/nodePools/" ++ pool
|}.

(** A scripted outside world: the answers to the next delete calls, the
    answer once the script is used up, and the state of the context. *)
Record Script := {
  answers : list (option error);
  otherwise : option error;
  cancelled : option error
}.

Definition next (s : Script) : option error * Script :=
  match answers s with
  | [] => (otherwise s, s)
  | a :: rest =>
      (a, {| answers := rest; otherwise := otherwise s; cancelled := cancelled s |})
  end.

#[local] Instance scripted : Runtime Script := {|
  ctxErr := cancelled;
  ClusterDelete := fun _ => next;
  NodePoolDelete := fun _ => next;
  Sleep := fun _ s => s
|}.

Definition start (s : Script) : World Script := mkWorld s [].

(** An outside world that only counts the delete calls: the context is never
    done and every delete is answered by the same busy error. *)
#[local] Instance stuck : Runtime nat := {|
  ctxErr := fun _ => None;
  ClusterDelete := fun _ n =>
    (Some (errorString "Please wait and try again once it is done"), S n);
  NodePoolDelete := fun _ n =>
    (Some (errorString "Please wait and try again once it is done"), S n);
  Sleep := fun _ n => n
|}.

Definition busyErr : error := errorString "Please wait and try again once it is done".
Definition goneErr : error := errorString "googleapi: Error 404: notFound".
Definition bothErr : error :=
  errorString "notFound; Please wait and try again once it is done".
Definition fatalErr : error := errorString "googleapi: Error 403: forbidden".

(** The configuration that [createValidSecurityConfig] of the test file
    builds, on the fields modelled, as a function of the fields that the
    test cases change. *)
Definition securityConfig (alpha : option bool) (priv : option GKEPrivateClusterConfig)
    (de : option GKEDatabaseEncryption) (pools : list GKENodePoolConfig)
    : GKEClusterConfig := {|
  Meta := {| ObjectMeta_Name := "test-cluster"; Annotations := None |};
  Spec := {|
    ProjectID := "";
    Region := "";
    Zone := "";
    ClusterName := "test-security-cluster";
    EnableKubernetesAlpha := alpha;
    Labels := Some {[ "compliance" := "security" ]};
    PrivateClusterConfig := priv;
    BinaryAuthorization := Some {| BinaryAuthorization_Enabled := true |};
    ShieldedNodes := Some {| ShieldedNodes_Enabled := true |};
    LegacyAbac := Some {| LegacyAbac_Enabled := false |};
    MasterAuth :=
      Some {| Username := ""; Password := "";
              ClientCertificateConfig := Some {| IssueClientCertificate := false |} |};
    DatabaseEncryption := de;
    NodePools := pools
  |}
|}.

Definition privateNodes : GKEPrivateClusterConfig :=
  {| EnablePrivateNodes := true; EnablePrivateEndpoint := true;
     MasterIpv4CidrBlock := "172.16.0.0/28" |}.

Definition encrypted : GKEDatabaseEncryption :=
  {| State := "ENCRYPTED";
     KeyName := "projects/test/locations/us-central1/keyRings/ring/cryptoKeys/key" |}.

Definition defaultPool : GKENodePoolConfig :=
  {| Name := Some "default-pool";
     Config :=
       Some {| ShieldedInstanceConfig :=
                 Some {| EnableIntegrityMonitoring := true; EnableSecureBoot := true |};
               WorkloadMetadataConfig := Some {| Mode := "GKE_METADATA" |} |} |}.

Definition createValidSecurityConfig : GKEClusterConfig :=
  securityConfig (Some false) (Some privateNodes) (Some encrypted) [defaultPool].

(** [&gkev1.GKEClusterConfig{}]: every field at its zero value. *)
Definition emptyConfig : GKEClusterConfig := {|
  Meta := {| ObjectMeta_Name := ""; Annotations := None |};
  Spec := {|
    ProjectID := ""; Region := ""; Zone := ""; ClusterName := "";
    EnableKubernetesAlpha := None; Labels := None; PrivateClusterConfig := None;
    BinaryAuthorization := None; ShieldedNodes := None; LegacyAbac := None;
    MasterAuth := None; DatabaseEncryption := None; NodePools := []
  |}
|}.

End Example.

(** ** Further vocabulary, for the properties beyond the checklist *)

Module Update.

(** [config.Spec.NodePools = pools], the other fields kept. *)
Definition withNodePools (pools : list GKENodePoolConfig) (c : GKEClusterConfig)
    : GKEClusterConfig :=
  let s := Spec c in
  {| Meta := Meta c;
     Spec := {| ProjectID := ProjectID s; Region := Region s; Zone := Zone s;
                ClusterName := ClusterName s;
                EnableKubernetesAlpha := EnableKubernetesAlpha s; Labels := Labels s;
                PrivateClusterConfig := PrivateClusterConfig s;
                BinaryAuthorization := BinaryAuthorization s;
                ShieldedNodes := ShieldedNodes s; LegacyAbac := LegacyAbac s;
                MasterAuth := MasterAuth s; DatabaseEncryption := DatabaseEncryption s;
                NodePools := pools |} |}.

(** [config.Spec.Labels = labels], the other fields kept. *)
Definition withLabels (labels : option (gmap string string)) (c : GKEClusterConfig)
    : GKEClusterConfig :=
  let s := Spec c in
  {| Meta := Meta c;
     Spec := {| ProjectID := ProjectID s; Region := Region s; Zone := Zone s;
                ClusterName := ClusterName s;
                EnableKubernetesAlpha := EnableKubernetesAlpha s; Labels := labels;
                PrivateClusterConfig := PrivateClusterConfig s;
                BinaryAuthorization := BinaryAuthorization s;
                ShieldedNodes := ShieldedNodes s; LegacyAbac := LegacyAbac s;
                MasterAuth := MasterAuth s; DatabaseEncryption := DatabaseEncryption s;
                NodePools := NodePools s |} |}.

(** [config.ObjectMeta.Annotations = annotations], the other fields kept. *)
Definition withAnnotations (annotations : option (gmap string string))
    (c : GKEClusterConfig) : GKEClusterConfig :=
  {| Meta := {| ObjectMeta_Name := ObjectMeta_Name (Meta c); Annotations := annotations |};
     Spec := Spec c |}.

(** A Go map read through a possibly nil reference: a nil map reads as the
    empty one. *)
Definition read (m : option (gmap string string)) : gmap string string :=
  match m with
  | Some m => m
  | None => ∅
  end.




End Update.

Module Messages.

(** The messages of the cluster-level checks of the validator. *)
Definition cluster_messages : list string :=
  [ "alpha features must be disabled for security compliance";
    "private nodes must be enabled for security compliance";
    "binary authorization must be enabled for security compliance";
    "shielded nodes must be enabled for security compliance";
    "legacy ABAC must be disabled for security compliance";
    "basic authentication must be disabled for security compliance";
    "client certificate issuance must be disabled for security compliance";
    "database encryption must be enabled for security compliance" ].

(** What can be wrong with one node pool, in the order of the loop body. *)
Inductive PoolViolation := ConfigNil | NotShielded | NotGKEMetadata.

Definition pool_message (i : nat) (v : PoolViolation) : string :=
  "node pool " ++ fmt_d i ++
  match v with
  | ConfigNil => " config cannot be nil for security compliance"
  | NotShielded =>
      " must have shielded instance config with integrity monitoring and secure boot enabled"
  | NotGKEMetadata => " must use GKE_METADATA mode for security compliance"
  end.

(** The first thing wrong with a pool, if any. *)
Definition pool_violation (p : GKENodePoolConfig) : option PoolViolation :=
  match Config p with
  | None => Some ConfigNil
  | Some cfg =>
      if match ShieldedInstanceConfig cfg with
         | None => false
         | Some sic => EnableIntegrityMonitoring sic && EnableSecureBoot sic
         end
      then if match WorkloadMetadataConfig cfg with
              | None => false
              | Some wmc => String.eqb (Mode wmc) "GKE_METADATA"
              end
           then None
           else Some NotGKEMetadata
      else Some NotShielded
  end.

(** A decimal digit. *)
Definition is_digit (a : Ascii.ascii) : bool :=
  let n := Ascii.nat_of_ascii a in (48 <=? n)%nat && (n <=? 57)%nat.

Fixpoint all_digits (s : string) : bool :=
  match s with
  | EmptyString => true
  | String a t => is_digit a && all_digits t
  end.

End Messages.

(** Total time slept in a trace, in nanoseconds. *)
Definition total_slept (t : list Event) : Z := fold_right Z.add 0%Z (sleeps t).

Section Provenance.
Context {pkg : Package} {Env : Type} {rt : Runtime Env}.



(** The outside world after [n] attempts that each found the context live and
    got a busy answer, with [d] slept after each; [None] if one of these
    attempts goes otherwise. *)
Fixpoint after_busy (rrn : string) (d : Z) (n : nat) (e : Env) : option Env :=
  match n with
  | O => Some e
  | S n' =>
      match ctxErr e, classify (fst (ClusterDelete rrn e)) with
      | None, Busy => after_busy rrn d n' (Sleep d (snd (ClusterDelete rrn e)))
      | _, _ => None
      end
  end.
End Provenance.

(** * Properties *)

Local Open Scope list_scope.

(** ** The validator against the checklist *)

Module ComplianceFacts.
Import Compliance Checklist.

(** A pool passes the loop body exactly when it is hardened. *)
Lemma checkNodePool_ok i p : checkNodePool i p = None <-> pool_ok p = true.
Proof.
  unfold checkNodePool, pool_ok, fmt.Errorf.
  destruct (Config p) as [cfg|]; [|split; discriminate].
  destruct (ShieldedInstanceConfig cfg) as [sic|]; [|split; discriminate].
  destruct (EnableIntegrityMonitoring sic), (EnableSecureBoot sic); cbn [negb orb andb];
    try (split; discriminate).
  destruct (WorkloadMetadataConfig cfg) as [wmc|]; [|split; discriminate].
  destruct (String.eqb (Mode wmc) "GKE_METADATA"); cbn [negb]; split; congruence.
Qed.

Lemma checkNodePools_ok pools :
  forall i, checkNodePools i pools = None <-> forallb pool_ok pools = true.
Proof.
  induction pools as [|p rest IH]; intros i; cbn [checkNodePools forallb]; [tauto|].
  pose proof (checkNodePool_ok i p) as Hp.
  destruct (checkNodePool i p) as [e|].
  - destruct (pool_ok p); cbn [andb]; [|split; discriminate].
    destruct Hp as [_ Hp]. discriminate (Hp eq_refl).
  - destruct Hp as [Hp _]. rewrite (Hp eq_refl). cbn [andb]. apply IH.
Qed.

(** The loop reports the first pool, in slice order, that is not hardened,
    under its index. *)
Lemma checkNodePools_first pools :
  forall k e, checkNodePools k pools = Some e ->
  exists i p, pools !! i = Some p /\ pool_ok p = false /\
              (forall j q, j < i -> pools !! j = Some q -> pool_ok q = true) /\
              checkNodePool (k + i) p = Some e.
Proof.
  induction pools as [|p rest IH]; intros k e; cbn [checkNodePools]; [discriminate|].
  destruct (checkNodePool k p) as [e0|] eqn:Hp.
  - intros [= <-]. exists 0, p. repeat split.
    + destruct (pool_ok p) eqn:Hok; [|reflexivity].
      apply checkNodePool_ok with (i := k) in Hok. congruence.
    + intros j q Hj. lia.
    + rewrite Nat.add_0_r. exact Hp.
  - intros Hrest. destruct (IH _ _ Hrest) as (i & q & Hi & Hq & Hbefore & He).
    exists (S i), q. repeat split; [exact Hi | exact Hq | | ].
    + intros [|j] q' Hj Hlook.
      * cbn in Hlook. injection Hlook as <-. apply (checkNodePool_ok k). exact Hp.
      * apply (Hbefore j); [lia | exact Hlook].
    + rewrite <- He. f_equal. lia.
Qed.

(** The validator is the report of the earliest broken rule. *)
Lemma validate_first_broken c :
  validateSecurityCompliance c =
  match first_broken c with None => None | Some r => violation_of r c end.
Proof.
  unfold validateSecurityCompliance, first_broken, all_rules, find, holds, violation_of, enabled.
  destruct (EnableKubernetesAlpha (Spec c)) as [[]|]; cbn [negb]; try reflexivity;
  (destruct (PrivateClusterConfig (Spec c)) as [p|]; [destruct (EnablePrivateNodes p)|];
   cbn [negb]; try reflexivity);
  (destruct (BinaryAuthorization (Spec c)) as [b|]; [destruct (BinaryAuthorization_Enabled b)|];
   cbn [negb]; try reflexivity);
  (destruct (ShieldedNodes (Spec c)) as [s|]; [destruct (ShieldedNodes_Enabled s)|];
   cbn [negb]; try reflexivity);
  (destruct (LegacyAbac (Spec c)) as [a|]; [destruct (LegacyAbac_Enabled a)|];
   cbn [negb]; try reflexivity).
  all: destruct (MasterAuth (Spec c)) as [auth|].
  all: unfold no_basic_auth, no_client_cert.
  all: try (destruct (String.eqb (Username auth) ""), (String.eqb (Password auth) "");
            cbn [negb orb andb]; try reflexivity;
            (destruct (ClientCertificateConfig auth) as [ccc|];
             [destruct (IssueClientCertificate ccc)|]; cbn [negb]; try reflexivity)).
  all: destruct (DatabaseEncryption (Spec c)) as [de|];
    [destruct (String.eqb (State de) "ENCRYPTED")|]; cbn [negb]; try reflexivity.
  all: destruct (forallb pool_ok (NodePools (Spec c))) eqn:E; cbn [negb]; try reflexivity.
  all: apply checkNodePools_ok; exact E.
Qed.

(** A broken rule has a report. *)
Lemma violation_of_broken c r : holds r c = false -> exists e, violation_of r c = Some e.
Proof.
  destruct r; unfold holds, violation_of, fmt.Errorf; intros Hr; eauto.
  - destruct (MasterAuth (Spec c)) as [auth|]; [|discriminate].
    destruct (no_basic_auth auth); eauto.
  - destruct (checkNodePools 0 (NodePools (Spec c))) as [e|] eqn:E; [eauto|].
    apply checkNodePools_ok in E. congruence.
Qed.

Lemma first_broken_compliant c : compliant c = true -> first_broken c = None.
Proof.
  unfold compliant, first_broken. intros Hall.
  destruct (find _ all_rules) as [r|] eqn:F; [|reflexivity].
  apply find_some in F as [Hin Hr].
  rewrite forallb_forall in Hall. rewrite (Hall r Hin) in Hr. discriminate.
Qed.

Lemma first_broken_earliest c r :
  holds r c = false ->
  (forall r', rank r' < rank r -> holds r' c = true) ->
  first_broken c = Some r.
Proof.
  intros Hr Hbefore. unfold first_broken, all_rules.
  destruct r; cbn [find];
    repeat match goal with
           | |- context [holds ?r' c] =>
               first [ rewrite Hr | rewrite (Hbefore r') by (cbn [rank]; lia) ]; cbn [negb]
           end; reflexivity.
Qed.

End ComplianceFacts.

Section ComplianceClaims.
Import Compliance Checklist ComplianceFacts.

(** C1. A snapshot that satisfies all eight rules of the checklist passes the
    validator (nil); a snapshot that breaks a rule, in particular one that
    differs from a compliant snapshot in a single rule, gets a non-nil
    violation. *)
Theorem validate_compliant_nil_broken_violation (c : GKEClusterConfig) :
  (compliant c = true -> validateSecurityCompliance c = None) /\
  (forall r, holds r c = false -> exists e, validateSecurityCompliance c = Some e).
Proof.
  split.
  - intros Hc. rewrite validate_first_broken, first_broken_compliant by assumption.
    reflexivity.
  - intros r Hr. rewrite validate_first_broken. unfold first_broken.
    destruct (find _ all_rules) as [r0|] eqn:F.
    + apply find_some in F as [_ Hr0]. apply violation_of_broken.
      destruct (holds r0 c); [discriminate | reflexivity].
    + assert (Hin : In r all_rules) by (destruct r; cbn; tauto).
      pose proof (find_none _ _ F r Hin) as Hn. cbn beta in Hn.
      rewrite Hr in Hn. discriminate Hn.
Qed.

(** C2. When a snapshot breaks a rule and satisfies every rule that comes
    before it in the checklist order, whatever it does with the later rules,
    the validator returns the violation of that rule and of no later one; for
    the node pools, it is the violation of the first pool of the slice that is
    not hardened. *)
Theorem validate_reports_earliest_broken_rule (c : GKEClusterConfig) (r : Rule) :
  holds r c = false ->
  (forall r', rank r' < rank r -> holds r' c = true) ->
  validateSecurityCompliance c = violation_of r c /\
  (exists e, violation_of r c = Some e) /\
  (r = NodePoolsHardened ->
   exists i p, NodePools (Spec c) !! i = Some p /\ pool_ok p = false /\
               (forall j q, j < i -> NodePools (Spec c) !! j = Some q -> pool_ok q = true) /\
               validateSecurityCompliance c = checkNodePool i p).
Proof.
  intros Hr Hbefore.
  assert (Hv : validateSecurityCompliance c = violation_of r c)
    by (rewrite validate_first_broken, (first_broken_earliest c r Hr Hbefore); reflexivity).
  destruct (violation_of_broken c r Hr) as [e He].
  split; [exact Hv|]. split; [eauto|].
  intros ->. rewrite Hv. cbn [violation_of] in *.
  destruct (checkNodePools_first _ _ _ He) as (i & p & Hi & Hp & Hj & Hrep).
  exists i, p. rewrite He. cbn [Nat.add] in Hrep. auto.
Qed.

(** C8. [needsSecurityCompliance] is true exactly when the label map has
    "compliance" = "security" or the annotation map has
    "gke.cattle.io/security-compliance" = "true", compared as whole strings;
    with neither map, as in the empty configuration, it is false. *)
Theorem needsSecurityCompliance_iff (c : GKEClusterConfig) :
  (needsSecurityCompliance c = true <-> compliance_required c) /\
  (Labels (Spec c) = None -> Annotations (Meta c) = None ->
   needsSecurityCompliance c = false) /\
  needsSecurityCompliance Example.emptyConfig = false.
Proof.
  unfold needsSecurityCompliance, compliance_required.
  split; [|split; [intros -> ->; reflexivity | reflexivity]].
  split.
  - destruct (Labels (Spec c)) as [labels|] eqn:HL.
    + destruct (labels !! "compliance") as [v|] eqn:Hv.
      * destruct (String.eqb_spec v "security") as [->|Hne].
        { intros _. left. eauto. }
        destruct (Annotations (Meta c)) as [ann|]; [|discriminate].
        destruct (ann !! "gke.cattle.io/security-compliance") as [v'|] eqn:Hv'; [|discriminate].
        destruct (String.eqb_spec v' "true") as [->|]; [|discriminate].
        intros _. right. eauto.
      * destruct (Annotations (Meta c)) as [ann|]; [|discriminate].
        destruct (ann !! "gke.cattle.io/security-compliance") as [v'|] eqn:Hv'; [|discriminate].
        destruct (String.eqb_spec v' "true") as [->|]; [|discriminate].
        intros _. right. eauto.
    + destruct (Annotations (Meta c)) as [ann|]; [|discriminate].
      destruct (ann !! "gke.cattle.io/security-compliance") as [v'|] eqn:Hv'; [|discriminate].
      destruct (String.eqb_spec v' "true") as [->|]; [|discriminate].
      intros _. right. eauto.
  - intros [(labels & -> & ->) | (ann & -> & ->)].
    + reflexivity.
    + rewrite String.eqb_refl. destruct (Labels (Spec c)) as [labels|]; [|reflexivity].
      destruct (labels !! "compliance") as [v|]; [|reflexivity].
      destruct (String.eqb v "security"); reflexivity.
Qed.

End ComplianceClaims.

(** ** The backoff loop and the cluster delete *)

Lemma repeat_snoc {A} (d : A) n l : repeat d n ++ d :: l = repeat d (S n) ++ l.
Proof. induction n as [|n IH]; cbn [repeat app] in *; [reflexivity | now rewrite IH]. Qed.

Module waitFacts.
Import wait.
Section Loop.
Context {St : Type} (sleep : Z -> St -> St) (condition : St -> (bool * option error) * St).

Lemma ExponentialBackoff_stop b st :
  (Steps b <= 0)%Z ->
  ExponentialBackoff sleep b condition st = Some (Some ErrWaitTimeout, st).
Proof.
  intros Hb. unfold ExponentialBackoff. cbn [ExponentialBackoff_loop].
  destruct (Z.ltb_spec 0 (Steps b)); [lia | reflexivity].
Qed.

Lemma ExponentialBackoff_attempt b st :
  (0 < Steps b)%Z ->
  ExponentialBackoff sleep b condition st =
  let '((ok, err), st1) := condition st in
  if match err with Some _ => true | None => false end || ok then Some (err, st1)
  else if (Steps b =? 1)%Z then Some (Some ErrWaitTimeout, st1)
  else ExponentialBackoff sleep {| Duration := Duration b; Steps := Steps b - 1 |}
         condition (sleep (Duration b) st1).
Proof.
  intros Hb. unfold ExponentialBackoff. cbn [ExponentialBackoff_loop].
  destruct (Z.ltb_spec 0 (Steps b)) as [_|]; [|lia].
  destruct (condition st) as [[ok err] st1].
  destruct (_ || ok); [reflexivity|].
  destruct (Steps b =? 1)%Z; [reflexivity|].
  unfold Step. destruct (Z.ltb_spec (Steps b) 1) as [|_]; [lia|].
  cbn [Steps Duration].
  replace (Z.to_nat (Steps b)) with (S (Z.to_nat (Steps b - 1))) by lia.
  reflexivity.
Qed.

Lemma ExponentialBackoff_total b st :
  exists r, ExponentialBackoff sleep b condition st = Some r.
Proof.
  remember (Z.to_nat (Steps b)) as n eqn:Hn.
  revert b st Hn. induction n as [|n IH]; intros b st Hn.
  - rewrite ExponentialBackoff_stop by lia. eauto.
  - rewrite ExponentialBackoff_attempt by lia.
    destruct (condition st) as [[ok err] st1].
    destruct (_ || ok); [eauto|].
    destruct (Steps b =? 1)%Z; [eauto|].
    apply IH. cbn [Steps]. lia.
Qed.
End Loop.
End waitFacts.

Section DeleteFacts.
Context {pkg : Package} {Env : Type} {rt : Runtime Env}.
Import wait.

Ltac run_closure :=
  unfold RemoveCluster_closure, RemoveCluster_condition, bind, ret,
    logrus.Infof, logrus.Errorf, emit, ctxDone, gkeClient_ClusterDelete;
  cbn [fst snd env trace].

Lemma closure_cancelled rrn a (w : World Env) cerr :
  ctxErr (env w) = Some cerr ->
  exists w', RemoveCluster_closure rrn (a, w) = ((false, Some cerr), (S a, w')) /\
             env w' = env w /\
             remote_calls (trace w') = remote_calls (trace w) /\
             sleeps (trace w') = sleeps (trace w).
Proof.
  intros Hc. run_closure. rewrite Hc. cbn [fst snd env trace].
  eexists; split; [reflexivity|]. repeat split.
Qed.

Lemma closure_live rrn a (w : World Env) :
  ctxErr (env w) = None ->
  exists w', RemoveCluster_closure rrn (a, w) =
               (cluster_outcome (fst (ClusterDelete rrn (env w))), (S a, w')) /\
             env w' = snd (ClusterDelete rrn (env w)) /\
             remote_calls (trace w') = S (remote_calls (trace w)) /\
             sleeps (trace w') = sleeps (trace w).
Proof.
  intros Hc. run_closure. rewrite Hc. cbn [fst snd env trace].
  unfold cluster_outcome, classify.
  destruct (ClusterDelete rrn (env w)) as [[e|] e']; cbn [fst snd env trace].
  - destruct (Contains (Error e) errWait); [|destruct (Contains (Error e) errNotFound)];
      cbn [fst snd env trace]; eexists; (split; [reflexivity|]); repeat split.
  - eexists; split; [reflexivity|]. repeat split.
Qed.

Lemma from_stop b rrn (st : nat * World Env) :
  (Steps b <= 0)%Z ->
  RemoveCluster_from b rrn st = Some (Some ErrWaitTimeout, snd st).
Proof.
  intros Hb. unfold RemoveCluster_from.
  rewrite waitFacts.ExponentialBackoff_stop by assumption. destruct st; reflexivity.
Qed.

Lemma from_attempt b rrn (st : nat * World Env) :
  (0 < Steps b)%Z ->
  RemoveCluster_from b rrn st =
  let '((ok, err), st1) := RemoveCluster_closure rrn st in
  if match err with Some _ => true | None => false end || ok then Some (err, snd st1)
  else if (Steps b =? 1)%Z then Some (Some ErrWaitTimeout, snd st1)
  else RemoveCluster_from {| Duration := Duration b; Steps := Steps b - 1 |} rrn
         (RemoveCluster_sleep (Duration b) st1).
Proof.
  intros Hb. unfold RemoveCluster_from.
  rewrite waitFacts.ExponentialBackoff_attempt by assumption.
  destruct (RemoveCluster_closure rrn st) as [[ok err] [a1 w1]].
  destruct (_ || ok); [reflexivity|].
  destruct (Steps b =? 1)%Z; reflexivity.
Qed.

Lemma from_cancelled b rrn a (w : World Env) cerr :
  (0 < Steps b)%Z -> ctxErr (env w) = Some cerr ->
  exists w', RemoveCluster_from b rrn (a, w) = Some (Some cerr, w') /\
             env w' = env w /\
             remote_calls (trace w') = remote_calls (trace w) /\
             sleeps (trace w') = sleeps (trace w).
Proof.
  intros Hb Hc. rewrite from_attempt by assumption.
  destruct (closure_cancelled rrn a w cerr Hc) as (w' & -> & He & Hn & Hs).
  cbn [orb snd]. eauto.
Qed.

(** An attempt whose remote call is answered by anything but a busy error
    ends the loop with the outcome of that attempt. *)
Lemma from_terminal b rrn a (w : World Env) :
  (0 < Steps b)%Z -> ctxErr (env w) = None ->
  classify (fst (ClusterDelete rrn (env w))) <> Busy ->
  exists w', RemoveCluster_from b rrn (a, w) =
               Some (snd (cluster_outcome (fst (ClusterDelete rrn (env w)))), w') /\
             env w' = snd (ClusterDelete rrn (env w)) /\
             remote_calls (trace w') = S (remote_calls (trace w)) /\
             sleeps (trace w') = sleeps (trace w).
Proof.
  intros Hb Hc Hcls. rewrite from_attempt by assumption.
  destruct (closure_live rrn a w Hc) as (w' & -> & He & Hn & Hs).
  exists w'. split; [|auto].
  unfold cluster_outcome in *.
  destruct (classify (fst (ClusterDelete rrn (env w)))) eqn:E; try reflexivity.
  - congruence.
  - cbn [snd]. unfold classify in E.
    destruct (fst (ClusterDelete rrn (env w))); [reflexivity | discriminate].
Qed.

(** A busy answer with steps left: sleep, then go on with one step less. *)
Lemma from_busy b rrn a (w : World Env) :
  (1 < Steps b)%Z -> ctxErr (env w) = None ->
  classify (fst (ClusterDelete rrn (env w))) = Busy ->
  exists w1, RemoveCluster_closure rrn (a, w) = ((false, None), (S a, w1)) /\
             env w1 = snd (ClusterDelete rrn (env w)) /\
             remote_calls (trace w1) = S (remote_calls (trace w)) /\
             sleeps (trace w1) = sleeps (trace w) /\
             RemoveCluster_from b rrn (a, w) =
             RemoveCluster_from {| Duration := Duration b; Steps := Steps b - 1 |} rrn
               (S a, time_Sleep (Duration b) w1).
Proof.
  intros Hb Hc Hcls. rewrite from_attempt by lia.
  destruct (closure_live rrn a w Hc) as (w1 & -> & He & Hn & Hs).
  unfold cluster_outcome. rewrite Hcls. exists w1. repeat (split; [assumption || reflexivity|]).
  cbn [orb]. destruct (Z.eqb_spec (Steps b) 1); [lia | reflexivity].
Qed.

(** A busy answer on the last step: the loop gives up. *)
Lemma from_busy_last b rrn a (w : World Env) :
  Steps b = 1%Z -> ctxErr (env w) = None ->
  classify (fst (ClusterDelete rrn (env w))) = Busy ->
  exists w', RemoveCluster_from b rrn (a, w) = Some (Some ErrWaitTimeout, w') /\
             remote_calls (trace w') = S (remote_calls (trace w)) /\
             sleeps (trace w') = sleeps (trace w).
Proof.
  intros Hb Hc Hcls. rewrite from_attempt by lia.
  destruct (closure_live rrn a w Hc) as (w1 & -> & He & Hn & Hs).
  unfold cluster_outcome. rewrite Hcls. cbn [orb]. rewrite Hb. cbn [Z.eqb Pos.eqb snd]. eauto.
Qed.

Lemma from_always_busy rrn :
  never_cancelled -> always_busy ->
  forall n b a (w : World Env),
    Steps b = Z.of_nat (S n) ->
    exists w', RemoveCluster_from b rrn (a, w) = Some (Some ErrWaitTimeout, w') /\
               remote_calls (trace w') = remote_calls (trace w) + S n /\
               sleeps (trace w') = repeat (Duration b) n ++ sleeps (trace w).
Proof.
  intros Hnc Hab. induction n as [|n IH]; intros b a w Hb.
  - destruct (from_busy_last b rrn a w Hb (Hnc _) (Hab _ _)) as (w' & -> & Hn & Hs).
    exists w'. rewrite Hn, Hs. split; [reflexivity|]. split; [lia | reflexivity].
  - destruct (from_busy b rrn a w ltac:(lia) (Hnc _) (Hab _ _))
      as (w1 & _ & _ & Hn & Hs & ->).
    destruct (IH {| Duration := Duration b; Steps := Steps b - 1 |} (S a)
                 (time_Sleep (Duration b) w1)) as (w' & -> & Hn' & Hs').
    { cbn [Steps]. lia. }
    exists w'. split; [reflexivity|]. rewrite Hn', Hs'.
    cbn [time_Sleep trace remote_calls sleeps Duration]. rewrite Hn, Hs. split; [lia|].
    apply repeat_snoc.
Qed.

Lemma from_busy_then_ok rrn :
  forall n b a (w : World Env),
    (Z.of_nat n < Steps b)%Z ->
    busy_then_ok rrn (Duration b) n (env w) ->
    exists w', RemoveCluster_from b rrn (a, w) = Some (None, w') /\
               remote_calls (trace w') = remote_calls (trace w) + S n /\
               sleeps (trace w') = repeat (Duration b) n ++ sleeps (trace w).
Proof.
  induction n as [|n IH]; intros b a w Hb Hsc.
  - destruct Hsc as [Hc Hok].
    assert (Hnb : classify (fst (ClusterDelete rrn (env w))) <> Busy)
      by (rewrite Hok; discriminate).
    destruct (from_terminal b rrn a w ltac:(lia) Hc Hnb) as (w' & Hr & _ & Hn & Hs).
    exists w'. rewrite Hr, Hn, Hs. unfold cluster_outcome. rewrite Hok.
    split; [reflexivity|]. split; [lia | reflexivity].
  - destruct Hsc as (Hc & Hbusy & Hrest).
    destruct (from_busy b rrn a w ltac:(lia) Hc Hbusy) as (w1 & _ & He & Hn & Hs & ->).
    destruct (IH {| Duration := Duration b; Steps := Steps b - 1 |} (S a)
                 (time_Sleep (Duration b) w1)) as (w' & -> & Hn' & Hs').
    { cbn [Steps]. lia. }
    { cbn [time_Sleep env Duration]. rewrite He. exact Hrest. }
    exists w'. split; [reflexivity|]. rewrite Hn', Hs'.
    cbn [time_Sleep trace remote_calls sleeps Duration]. rewrite Hn, Hs. split; [lia|].
    apply repeat_snoc.
Qed.

(** Whatever the outside world does, the loop ends, after at most [Steps]
    remote calls, with the same duration slept between any two attempts. *)
Lemma from_bounded rrn :
  forall n b a (w : World Env),
    Z.to_nat (Steps b) = n ->
    exists r w' k, RemoveCluster_from b rrn (a, w) = Some (r, w') /\
                   remote_calls (trace w') <= remote_calls (trace w) + n /\
                   k <= Nat.pred n /\
                   sleeps (trace w') = repeat (Duration b) k ++ sleeps (trace w).
Proof.
  induction n as [|n IH]; intros b a w Hb.
  - rewrite from_stop by lia. exists (Some ErrWaitTimeout), w, 0. cbn [snd repeat app].
    repeat split; lia.
  - destruct (ctxErr (env w)) as [cerr|] eqn:Hc.
    { destruct (from_cancelled b rrn a w cerr ltac:(lia) Hc) as (w' & -> & _ & Hn & Hs).
      exists (Some cerr), w', 0. rewrite Hn, Hs. cbn [repeat app]. repeat split; lia. }
    destruct (classify (fst (ClusterDelete rrn (env w)))) eqn:Hcls.
    2: { destruct (Z.eq_dec (Steps b) 1%Z) as [H1|H1].
         - destruct (from_busy_last b rrn a w H1 Hc Hcls) as (w' & -> & Hn & Hs).
           exists (Some ErrWaitTimeout), w', 0. rewrite Hn, Hs. cbn [repeat app].
           repeat split; lia.
         - destruct (from_busy b rrn a w ltac:(lia) Hc Hcls) as (w1 & _ & _ & Hn & Hs & ->).
           destruct (IH {| Duration := Duration b; Steps := Steps b - 1 |} (S a)
                        (time_Sleep (Duration b) w1)) as (r & w' & k & -> & Hn' & Hk & Hs').
           { cbn [Steps]. lia. }
           exists r, w', (S k). split; [reflexivity|].
           revert Hn' Hs'. cbn [time_Sleep trace remote_calls sleeps Duration].
           rewrite Hn, Hs. intros Hn' Hs'. rewrite Hs'.
           split; [lia|]. split; [cbn [Nat.pred]; lia|].
           apply repeat_snoc. }
    all: destruct (from_terminal b rrn a w ltac:(lia) Hc ltac:(congruence))
           as (w' & Hr & _ & Hn & Hs);
      eexists _, w', 0; rewrite Hr, Hn, Hs; cbn [repeat app]; repeat split; lia.
Qed.
End DeleteFacts.

Section DeleteClaims.
Context {pkg : Package} {Env : Type} {rt : Runtime Env}.
Import wait.

(** [RemoveCluster] is its loop, started on the package's backoff value
    with the counter at zero, after one log line. *)
Lemma RemoveCluster_start config (w : World Env) :
  exists w0, RemoveCluster config w =
               RemoveCluster_from backoff (clusterRRN_of config) (0, w0) /\
             env w0 = env w /\
             remote_calls (trace w0) = remote_calls (trace w) /\
             sleeps (trace w0) = sleeps (trace w).
Proof.
  unfold RemoveCluster, logrus.Infof, emit, clusterRRN_of.
  eexists; split; [reflexivity|]. repeat split.
Qed.

Lemma RemoveNodePool_run config nodePoolName (w : World Env) :
  RemoveNodePool config nodePoolName w =
  (pool_outcome (fst (NodePoolDelete (nodePoolRRN_of config nodePoolName) (env w))),
   mkWorld (snd (NodePoolDelete (nodePoolRRN_of config nodePoolName) (env w)))
           (EvNodePoolDelete (nodePoolRRN_of config nodePoolName) :: trace w)).
Proof.
  unfold RemoveNodePool, bind, ret, gkeClient_NodePoolDelete, pool_outcome, classify,
    nodePoolRRN_of.
  destruct (NodePoolDelete _ (env w)) as [[e|] e']; cbn [fst snd]; [|reflexivity].
  destruct (Contains (Error e) errWait); [reflexivity|].
  destruct (Contains (Error e) errNotFound); reflexivity.
Qed.

(** C3. [RemoveNodePool] makes one remote [NodePoolDelete] call and no other
    remote call or sleep, and maps the answer, the cases being tried in this
    order: busy marker in the message, (Retry, nil); not-found marker,
    (NotChanged, nil); any other error E, (NotChanged, E); nil, (Changed,
    nil). *)
Theorem RemoveNodePool_single_attempt config nodePoolName (w : World Env) :
  let rrn := nodePoolRRN_of config nodePoolName in
  let answer := fst (NodePoolDelete rrn (env w)) in
  let result := fst (RemoveNodePool config nodePoolName w) in
  let w' := snd (RemoveNodePool config nodePoolName w) in
  (trace w' = EvNodePoolDelete rrn :: trace w /\
   env w' = snd (NodePoolDelete rrn (env w)) /\
   remote_calls (trace w') = S (remote_calls (trace w)) /\
   sleeps (trace w') = sleeps (trace w)) /\
  (forall e, answer = Some e -> Contains (Error e) errWait = true ->
             result = (Retry, None)) /\
  (forall e, answer = Some e -> Contains (Error e) errWait = false ->
             Contains (Error e) errNotFound = true -> result = (NotChanged, None)) /\
  (forall e, answer = Some e -> Contains (Error e) errWait = false ->
             Contains (Error e) errNotFound = false -> result = (NotChanged, Some e)) /\
  (answer = None -> result = (Changed, None)).
Proof.
  cbn zeta. rewrite RemoveNodePool_run. cbn [fst snd trace env remote_calls sleeps].
  split; [repeat split|].
  unfold pool_outcome, classify.
  repeat split; intros; repeat match goal with
                               | E : _ = _ |- _ => rewrite E
                               end; reflexivity.
Qed.

(** C4. Whatever the outside world does, [RemoveCluster] returns after at
    most 12 remote calls with 30 seconds slept between attempts.  When the
    context is never done and every [ClusterDelete] is answered by a busy
    error, it makes exactly 12 remote calls, sleeps 30 seconds after each but
    the last, and returns [ErrWaitTimeout], which is none of the errors that
    are identified by their message. *)
Theorem RemoveCluster_busy_exhausts config (w : World Env) :
  (exists r w' k,
     RemoveCluster config w = Some (r, w') /\
     remote_calls (trace w') <= remote_calls (trace w) + 12 /\
     k <= 11 /\
     sleeps (trace w') = repeat (30 * Second)%Z k ++ sleeps (trace w)) /\
  (never_cancelled -> always_busy ->
   exists w',
     RemoveCluster config w = Some (Some ErrWaitTimeout, w') /\
     remote_calls (trace w') = remote_calls (trace w) + 12 /\
     sleeps (trace w') = repeat (30 * Second)%Z 11 ++ sleeps (trace w) /\
     forall msg, ErrWaitTimeout <> errorString msg).
Proof.
  destruct (RemoveCluster_start config w) as (w0 & -> & _ & Hn0 & Hs0).
  split.
  - destruct (from_bounded (clusterRRN_of config) 12 backoff 0 w0 eq_refl)
      as (r & w' & k & Hr & Hn & Hk & Hs).
    exists r, w', k. rewrite <- Hn0, <- Hs0. cbn [Nat.pred] in Hk. auto.
  - intros Hnc Hab.
    destruct (from_always_busy (clusterRRN_of config) Hnc Hab 11 backoff 0 w0 eq_refl)
      as (w' & Hr & Hn & Hs).
    exists w'. rewrite <- Hn0, <- Hs0. repeat split; try assumption. discriminate.
Qed.

(** C5. For N < 12: when the context is live and [ClusterDelete] is answered
    by a busy error on the first N attempts and by nil on the next,
    [RemoveCluster] returns nil after exactly N + 1 remote calls (and N sleeps
    of 30 seconds). *)
Theorem RemoveCluster_busy_then_ok config (w : World Env) (N : nat) :
  N < 12 ->
  busy_then_ok (clusterRRN_of config) (30 * Second)%Z N (env w) ->
  exists w',
    RemoveCluster config w = Some (None, w') /\
    remote_calls (trace w') = remote_calls (trace w) + (N + 1) /\
    sleeps (trace w') = repeat (30 * Second)%Z N ++ sleeps (trace w).
Proof.
  intros HN Hsc.
  destruct (RemoveCluster_start config w) as (w0 & -> & He0 & Hn0 & Hs0).
  destruct (from_busy_then_ok (clusterRRN_of config) N backoff 0 w0) as (w' & Hr & Hn & Hs).
  - change (Steps backoff) with 12%Z. lia.
  - rewrite He0. exact Hsc.
  - exists w'. rewrite <- Hn0, <- Hs0, Hn. repeat split; try assumption. lia.
Qed.

(** C6. The classification of an error value: nil is no error; a message with
    the busy marker is Busy; otherwise a message with the not-found marker is
    Absent; any other error is Fatal.  Both [RemoveNodePool] and each attempt
    of [RemoveCluster] act on the answer of the remote call by this
    classification, and a Fatal error is returned as it is, at once: after
    that one remote call there is no sleep and no further call. *)
Theorem classification_drives_both_deletes :
  (classify None = NoError /\
   (forall e, Contains (Error e) errWait = true -> classify (Some e) = Busy) /\
   (forall e, Contains (Error e) errWait = false ->
              Contains (Error e) errNotFound = true -> classify (Some e) = Absent) /\
   (forall e, Contains (Error e) errWait = false ->
              Contains (Error e) errNotFound = false -> classify (Some e) = Fatal)) /\
  (forall config nodePoolName (w : World Env),
     fst (RemoveNodePool config nodePoolName w) =
     pool_outcome (fst (NodePoolDelete (nodePoolRRN_of config nodePoolName) (env w)))) /\
  (forall rrn a (w : World Env),
     ctxErr (env w) = None ->
     fst (RemoveCluster_closure rrn (a, w)) =
     cluster_outcome (fst (ClusterDelete rrn (env w)))) /\
  (forall config nodePoolName (w : World Env) e,
     fst (NodePoolDelete (nodePoolRRN_of config nodePoolName) (env w)) = Some e ->
     classify (Some e) = Fatal ->
     fst (RemoveNodePool config nodePoolName w) = (NotChanged, Some e) /\
     remote_calls (trace (snd (RemoveNodePool config nodePoolName w))) =
       S (remote_calls (trace w))) /\
  (forall b rrn a (w : World Env) e,
     (0 < Steps b)%Z -> ctxErr (env w) = None ->
     fst (ClusterDelete rrn (env w)) = Some e ->
     classify (Some e) = Fatal ->
     exists w',
       RemoveCluster_from b rrn (a, w) = Some (Some e, w') /\
       remote_calls (trace w') = S (remote_calls (trace w)) /\
       sleeps (trace w') = sleeps (trace w)).
Proof.
  split; [|split; [|split; [|split]]].
  - unfold classify. repeat split; intros; repeat match goal with
                                                  | E : _ = _ |- _ => rewrite E
                                                  end; reflexivity.
  - intros. rewrite RemoveNodePool_run. reflexivity.
  - intros rrn a w Hc. destruct (closure_live rrn a w Hc) as (w' & -> & _). reflexivity.
  - intros config nodePoolName w e Hans Hcls. rewrite RemoveNodePool_run.
    cbn [fst snd trace remote_calls]. unfold pool_outcome. rewrite Hans, Hcls. auto.
  - intros b rrn a w e Hb Hc Hans Hcls.
    destruct (from_terminal b rrn a w Hb Hc) as (w' & Hr & _ & Hn & Hs).
    { rewrite Hans, Hcls. discriminate. }
    exists w'. rewrite Hr. unfold cluster_outcome. rewrite Hans, Hcls. auto.
Qed.

(** C7. When the context is live and [ClusterDelete] is answered by an Absent
    (not found) error on the first attempt, [RemoveCluster] returns nil after
    that one remote call, with no sleep.  The same holds at any later attempt:
    an Absent answer ends the loop with nil, so it never reaches the caller
    as an error. *)
Theorem RemoveCluster_absent_is_success :
  (forall config (w : World Env),
     ctxErr (env w) = None ->
     classify (fst (ClusterDelete (clusterRRN_of config) (env w))) = Absent ->
     exists w',
       RemoveCluster config w = Some (None, w') /\
       remote_calls (trace w') = S (remote_calls (trace w)) /\
       sleeps (trace w') = sleeps (trace w)) /\
  (forall b rrn a (w : World Env),
     (0 < Steps b)%Z -> ctxErr (env w) = None ->
     classify (fst (ClusterDelete rrn (env w))) = Absent ->
     exists w',
       RemoveCluster_from b rrn (a, w) = Some (None, w') /\
       remote_calls (trace w') = S (remote_calls (trace w)) /\
       sleeps (trace w') = sleeps (trace w)).
Proof.
  assert (Hany : forall b rrn a (w : World Env),
     (0 < Steps b)%Z -> ctxErr (env w) = None ->
     classify (fst (ClusterDelete rrn (env w))) = Absent ->
     exists w',
       RemoveCluster_from b rrn (a, w) = Some (None, w') /\
       remote_calls (trace w') = S (remote_calls (trace w)) /\
       sleeps (trace w') = sleeps (trace w)).
  { intros b rrn a w Hb Hc Hcls.
    destruct (from_terminal b rrn a w Hb Hc) as (w' & Hr & _ & Hn & Hs).
    { rewrite Hcls. discriminate. }
    exists w'. rewrite Hr. unfold cluster_outcome. rewrite Hcls. auto. }
  split; [|exact Hany].
  intros config w Hc Hcls.
  destruct (RemoveCluster_start config w) as (w0 & -> & He0 & Hn0 & Hs0).
  rewrite <- He0 in Hc, Hcls. rewrite <- Hn0, <- Hs0.
  apply Hany; [reflexivity | assumption | assumption].
Qed.

(** C9. When the context is already done as an attempt of [RemoveCluster]
    starts, the first attempt included, [RemoveCluster] returns the context's
    error at once: neither that attempt nor a later one makes a remote call,
    and there is no sleep. *)
Theorem RemoveCluster_cancelled_no_remote_call :
  (forall config (w : World Env) cerr,
     ctxErr (env w) = Some cerr ->
     exists w',
       RemoveCluster config w = Some (Some cerr, w') /\
       env w' = env w /\
       remote_calls (trace w') = remote_calls (trace w) /\
       sleeps (trace w') = sleeps (trace w)) /\
  (forall b rrn a (w : World Env) cerr,
     (0 < Steps b)%Z -> ctxErr (env w) = Some cerr ->
     exists w',
       RemoveCluster_from b rrn (a, w) = Some (Some cerr, w') /\
       env w' = env w /\
       remote_calls (trace w') = remote_calls (trace w) /\
       sleeps (trace w') = sleeps (trace w)).
Proof.
  split; [|intros; apply from_cancelled; assumption].
  intros config w cerr Hc.
  destruct (RemoveCluster_start config w) as (w0 & -> & He0 & Hn0 & Hs0).
  rewrite <- He0 in Hc |- *. rewrite <- Hn0, <- Hs0.
  apply from_cancelled; [reflexivity | assumption].
Qed.

(** C10. An error whose message has both markers is Busy, because the busy
    test comes first: [RemoveNodePool] returns (Retry, nil), not (NotChanged,
    nil); an attempt of [RemoveCluster] reports not done without an error,
    and with steps left the loop sleeps and makes a further attempt rather
    than return nil. *)
Theorem busy_marker_takes_precedence (e : error) :
  Contains (Error e) errWait = true ->
  Contains (Error e) errNotFound = true ->
  classify (Some e) = Busy /\
  (forall config nodePoolName (w : World Env),
     fst (NodePoolDelete (nodePoolRRN_of config nodePoolName) (env w)) = Some e ->
     fst (RemoveNodePool config nodePoolName w) = (Retry, None)) /\
  (forall b rrn a (w : World Env),
     (1 < Steps b)%Z -> ctxErr (env w) = None ->
     fst (ClusterDelete rrn (env w)) = Some e ->
     exists w1,
       RemoveCluster_closure rrn (a, w) = ((false, None), (S a, w1)) /\
       remote_calls (trace w1) = S (remote_calls (trace w)) /\
       RemoveCluster_from b rrn (a, w) =
       RemoveCluster_from {| Duration := Duration b; Steps := Steps b - 1 |} rrn
         (S a, time_Sleep (Duration b) w1)).
Proof.
  intros Hbusy Hgone.
  assert (Hcls : classify (Some e) = Busy) by (unfold classify; rewrite Hbusy; reflexivity).
  split; [exact Hcls|]. split.
  - intros config nodePoolName w Hans. rewrite RemoveNodePool_run. cbn [fst].
    unfold pool_outcome. rewrite Hans, Hcls. reflexivity.
  - intros b rrn a w Hb Hc Hans. rewrite <- Hans in Hcls.
    destruct (from_busy b rrn a w Hb Hc Hcls) as (w1 & Hcl & _ & Hn & _ & Hr).
    exists w1. auto.
Qed.

End DeleteClaims.

(** ** The claims on concrete runs *)

Section Runs.
Import Compliance Checklist Example.
  #[local] Existing Instance Example.package.
  #[local] Existing Instance Example.scripted.
  #[local] Existing Instance Example.stuck.

(** The cases of [TestSecurityComplianceValidation] and of
    [TestNeedsSecurityCompliance]. *)
Example ValidSecurityCompliantConfig :
  validateSecurityCompliance createValidSecurityConfig = None.
Proof. reflexivity. Qed.

Example AlphaFeaturesEnabled :
  validateSecurityCompliance
    (securityConfig (Some true) (Some privateNodes) (Some encrypted) [defaultPool])
  = fmt.Errorf "alpha features must be disabled for security compliance".
Proof. reflexivity. Qed.

Example PrivateClusterNotConfigured :
  validateSecurityCompliance
    (securityConfig (Some false) None (Some encrypted) [defaultPool])
  = fmt.Errorf "private nodes must be enabled for security compliance".
Proof. reflexivity. Qed.

Example NodePoolWithoutShieldedInstance :
  validateSecurityCompliance
    (securityConfig (Some false) (Some privateNodes) (Some encrypted)
       [ {| Name := Some "default-pool";
            Config := Some {| ShieldedInstanceConfig := None;
                              WorkloadMetadataConfig := Some {| Mode := "GKE_METADATA" |} |} |} ])
  = fmt.Errorf ("node pool 0 must have shielded instance config with integrity monitoring "
            ++ "and secure boot enabled").
Proof. reflexivity. Qed.

Example SecurityComplianceLabel :
  needsSecurityCompliance createValidSecurityConfig = true.
Proof. reflexivity. Qed.

Example SecurityComplianceAnnotation :
  needsSecurityCompliance
    {| Meta := {| ObjectMeta_Name := "";
                  Annotations := Some {[ "gke.cattle.io/security-compliance" := "true" ]} |};
       Spec := Spec emptyConfig |} = true.
Proof. reflexivity. Qed.

Example NoComplianceIndicators : needsSecurityCompliance emptyConfig = false.
Proof. reflexivity. Qed.

(** The comparison is exact: another capitalisation does not count. *)
Example SecurityComplianceAnnotation_case :
  needsSecurityCompliance
    {| Meta := {| ObjectMeta_Name := "";
                  Annotations := Some {[ "gke.cattle.io/security-compliance" := "True" ]} |};
       Spec := Spec emptyConfig |} = false.
Proof. reflexivity. Qed.

(** A cluster that stays busy: twelve remote calls, eleven sleeps of thirty
    seconds, then the timeout of the wait package. *)
Example RemoveCluster_stays_busy :
  match RemoveCluster emptyConfig
          (start {| answers := []; otherwise := Some busyErr; cancelled := None |}) with
  | Some (r, w) => Some (r, remote_calls (trace w), sleeps (trace w))
  | None => None
  end = Some (Some ErrWaitTimeout, 12, repeat 30000000000%Z 11).
Proof. vm_compute. reflexivity. Qed.

(** Busy once, then gone: success after two remote calls and one sleep. *)
Example RemoveCluster_busy_then_gone :
  match RemoveCluster emptyConfig
          (start {| answers := [Some busyErr; Some goneErr]; otherwise := None;
                    cancelled := None |}) with
  | Some (r, w) => Some (r, remote_calls (trace w), sleeps (trace w))
  | None => None
  end = Some (None, 2, [30000000000%Z]).
Proof. vm_compute. reflexivity. Qed.

Lemma validate_compliant_nil_broken_violation_witness :
  validateSecurityCompliance createValidSecurityConfig = None /\
  exists e, validateSecurityCompliance
              (securityConfig (Some true) (Some privateNodes) (Some encrypted) [defaultPool])
            = Some e.
Proof.
  split.
  - apply (proj1 (validate_compliant_nil_broken_violation _)). reflexivity.
  - apply (proj2 (validate_compliant_nil_broken_violation _) AlphaDisabled). reflexivity.
Defined.

Lemma validate_reports_earliest_broken_rule_witness :
  validateSecurityCompliance (securityConfig (Some false) None None [defaultPool]) =
  fmt.Errorf "private nodes must be enabled for security compliance".
Proof.
  refine (proj1 (validate_reports_earliest_broken_rule
                   (securityConfig (Some false) None None [defaultPool]) PrivateNodes
                   eq_refl _)).
  intros r' Hr'. destruct r'; cbn [rank] in Hr'; try lia. reflexivity.
Defined.

Lemma needsSecurityCompliance_iff_witness :
  needsSecurityCompliance createValidSecurityConfig = true.
Proof.
  apply (proj1 (needsSecurityCompliance_iff createValidSecurityConfig)).
  left. eexists. split; reflexivity.
Defined.

Lemma RemoveNodePool_single_attempt_witness :
  fst (RemoveNodePool emptyConfig "pool"
         (start {| answers := [Some fatalErr]; otherwise := None; cancelled := None |}))
  = (NotChanged, Some fatalErr).
Proof.
  pose proof (RemoveNodePool_single_attempt emptyConfig "pool"
                (start {| answers := [Some fatalErr]; otherwise := None; cancelled := None |}))
    as Hspec.
  cbn zeta in Hspec. destruct Hspec as (_ & _ & _ & Hfatal & _).
  apply Hfatal; reflexivity.
Defined.

Lemma RemoveCluster_busy_exhausts_witness :
  exists w', RemoveCluster emptyConfig (mkWorld 0 []) = Some (Some ErrWaitTimeout, w') /\
             remote_calls (trace w') = 12.
Proof.
  destruct (proj2 (RemoveCluster_busy_exhausts emptyConfig (mkWorld 0 [])))
    as (w' & Hr & Hn & _).
  - intros e. reflexivity.
  - intros rrn e. reflexivity.
  - exists w'. split; [exact Hr | exact Hn].
Defined.

Lemma RemoveCluster_busy_then_ok_witness :
  exists w',
    RemoveCluster emptyConfig
      (start {| answers := [Some busyErr; Some busyErr; None]; otherwise := Some fatalErr;
                cancelled := None |}) = Some (None, w') /\
    remote_calls (trace w') = 3.
Proof.
  destruct (RemoveCluster_busy_then_ok emptyConfig
              (start {| answers := [Some busyErr; Some busyErr; None];
                        otherwise := Some fatalErr; cancelled := None |}) 2)
    as (w' & Hr & Hn & _).
  - lia.
  - cbn [busy_then_ok]. repeat split; reflexivity.
  - exists w'. split; [exact Hr | exact Hn].
Defined.

Lemma classification_drives_both_deletes_witness :
  exists w',
    RemoveCluster_from backoff "c"
      (0, start {| answers := [Some fatalErr]; otherwise := None; cancelled := None |})
    = Some (Some fatalErr, w') /\
    remote_calls (trace w') = 1.
Proof.
  destruct (classification_drives_both_deletes (Env := Script)) as (_ & _ & _ & _ & Hfatal).
  destruct (Hfatal backoff "c" 0
              (start {| answers := [Some fatalErr]; otherwise := None; cancelled := None |})
              fatalErr) as (w' & Hr & Hn & _); try reflexivity.
  exists w'. split; [exact Hr | exact Hn].
Defined.

Lemma RemoveCluster_absent_is_success_witness :
  exists w',
    RemoveCluster emptyConfig
      (start {| answers := [Some goneErr]; otherwise := Some fatalErr; cancelled := None |})
    = Some (None, w') /\
    remote_calls (trace w') = 1.
Proof.
  destruct (proj1 (RemoveCluster_absent_is_success (Env := Script)) emptyConfig
              (start {| answers := [Some goneErr]; otherwise := Some fatalErr;
                        cancelled := None |})) as (w' & Hr & Hn & _); try reflexivity.
  exists w'. split; [exact Hr | exact Hn].
Defined.

Lemma RemoveCluster_cancelled_no_remote_call_witness :
  exists w',
    RemoveCluster emptyConfig
      (start {| answers := []; otherwise := None; cancelled := Some Canceled |})
    = Some (Some Canceled, w') /\
    remote_calls (trace w') = 0.
Proof.
  destruct (proj1 (RemoveCluster_cancelled_no_remote_call (Env := Script)) emptyConfig
              (start {| answers := []; otherwise := None; cancelled := Some Canceled |})
              Canceled) as (w' & Hr & _ & Hn & _); try reflexivity.
  exists w'. split; [exact Hr | exact Hn].
Defined.

Lemma busy_marker_takes_precedence_witness :
  classify (Some bothErr) = Busy /\
  fst (RemoveNodePool emptyConfig "pool"
         (start {| answers := [Some bothErr]; otherwise := None; cancelled := None |}))
  = (Retry, None).
Proof.
  destruct (busy_marker_takes_precedence bothErr (Env := Script)) as (Hcls & Hpool & _);
    try reflexivity.
  split; [exact Hcls|]. apply Hpool. reflexivity.
Defined.

End Runs.


(** * Further properties *)

(** ** The validator: absent blocks, appended pools, messages, keys *)

Module ValidatorFacts.
Import Compliance Checklist Update Messages.

Lemma Rule_eq_dec (r r' : Rule) : {r = r'} + {r <> r'}.
Proof. decide equality. Qed.

Lemma checkNodePool_message i p :
  checkNodePool i p =
  match pool_violation p with
  | None => None
  | Some v => Some (errorString (pool_message i v))
  end.
Proof.
  unfold checkNodePool, pool_violation, pool_message, fmt.Errorf.
  destruct (Config p) as [cfg|]; [|reflexivity].
  destruct (ShieldedInstanceConfig cfg) as [sic|]; [|reflexivity].
  destruct (EnableIntegrityMonitoring sic), (EnableSecureBoot sic); cbn [negb orb andb];
    try reflexivity.
  destruct (WorkloadMetadataConfig cfg) as [wmc|]; [|reflexivity].
  destruct (String.eqb (Mode wmc) "GKE_METADATA"); reflexivity.
Qed.

Lemma checkNodePools_app l1 l2 :
  forall k, checkNodePools k (l1 ++ l2) =
            match checkNodePools k l1 with
            | Some e => Some e
            | None => checkNodePools (k + length l1) l2
            end.
Proof.
  induction l1 as [|p l1 IH]; intros k; cbn [checkNodePools app length].
  - rewrite Nat.add_0_r. reflexivity.
  - destruct (checkNodePool k p); [reflexivity|].
    rewrite IH. replace (S k + length l1) with (k + S (length l1)) by lia. reflexivity.
Qed.

(** The cluster-level checks do not look at the node pools, and the node
    pools are looked at only when those checks pass. *)
Lemma validate_split c :
  validateSecurityCompliance c =
  match validateSecurityCompliance (withNodePools [] c) with
  | Some e => Some e
  | None => checkNodePools 0 (NodePools (Spec c))
  end.
Proof.
  unfold validateSecurityCompliance, withNodePools, enabled, fmt.Errorf.
  cbn [Spec EnableKubernetesAlpha PrivateClusterConfig BinaryAuthorization ShieldedNodes
       LegacyAbac MasterAuth DatabaseEncryption NodePools checkNodePools].
  destruct (EnableKubernetesAlpha (Spec c)) as [[]|]; try reflexivity;
  (destruct (PrivateClusterConfig (Spec c)) as [p|]; [destruct (EnablePrivateNodes p)|];
   cbn [negb]; try reflexivity);
  (destruct (BinaryAuthorization (Spec c)) as [b|]; [destruct (BinaryAuthorization_Enabled b)|];
   cbn [negb]; try reflexivity);
  (destruct (ShieldedNodes (Spec c)) as [s|]; [destruct (ShieldedNodes_Enabled s)|];
   cbn [negb]; try reflexivity);
  (destruct (LegacyAbac (Spec c)) as [a|]; [destruct (LegacyAbac_Enabled a)|];
   cbn [negb]; try reflexivity).
  all: destruct (MasterAuth (Spec c)) as [auth|].
  all: try (destruct (String.eqb (Username auth) ""), (String.eqb (Password auth) "");
            cbn [negb orb andb]; try reflexivity;
            (destruct (ClientCertificateConfig auth) as [ccc|];
             [destruct (IssueClientCertificate ccc)|]; cbn [negb]; try reflexivity)).
  all: destruct (DatabaseEncryption (Spec c)) as [de|];
    [destruct (String.eqb (State de) "ENCRYPTED")|]; cbn [negb]; reflexivity.
Qed.




(** X2. Appending node pools never changes a violation that is already
    reported; on a snapshot that passes, the result is the report of the loop
    on the appended pools, their indices counted on from the pools that were
    there. *)
Theorem validate_append_pools c more :
  validateSecurityCompliance (withNodePools (NodePools (Spec c) ++ more) c) =
  match validateSecurityCompliance c with
  | Some e => Some e
  | None => checkNodePools (length (NodePools (Spec c))) more
  end.
Proof.
  rewrite (validate_split (withNodePools _ c)), (validate_split c).
  change (withNodePools [] (withNodePools (NodePools (Spec c) ++ more) c))
    with (withNodePools [] c).
  change (NodePools (Spec (withNodePools (NodePools (Spec c) ++ more) c)))
    with (NodePools (Spec c) ++ more).
  destruct (validateSecurityCompliance (withNodePools [] c)); [reflexivity|].
  rewrite checkNodePools_app. reflexivity.
Qed.

Lemma violation_of_message c r e :
  r <> NodePoolsHardened -> violation_of r c = Some e ->
  exists msg, e = errorString msg /\ In msg cluster_messages.
Proof.
  intros Hr. destruct r; try congruence; unfold violation_of, fmt.Errorf;
    try (intros [= <-]; eexists; split; [reflexivity | cbn; tauto]).
  destruct (MasterAuth (Spec c)) as [auth|]; [|discriminate].
  destruct (no_basic_auth auth); intros [= <-]; eexists; (split; [reflexivity | cbn; tauto]).
Qed.

(** X3. A violation is always one of the eight fixed cluster-level messages,
    or the message of a node pool that is in the slice, under an index within
    its bounds, for what is first wrong with that pool. *)
Theorem validate_message_catalogue c e :
  validateSecurityCompliance c = Some e ->
  exists msg, e = errorString msg /\
    (In msg cluster_messages \/
     exists i p v, i < length (NodePools (Spec c)) /\
                   NodePools (Spec c) !! i = Some p /\
                   pool_violation p = Some v /\
                   msg = pool_message i v).
Proof.
  rewrite ComplianceFacts.validate_first_broken.
  destruct (first_broken c) as [r|]; [|discriminate].
  intros Hv. destruct (Rule_eq_dec r NodePoolsHardened) as [->|Hr].
  - cbn [violation_of] in Hv.
    destruct (ComplianceFacts.checkNodePools_first _ _ _ Hv) as (i & p & Hi & _ & _ & Hrep).
    cbn [Nat.add] in Hrep. rewrite checkNodePool_message in Hrep.
    destruct (pool_violation p) as [v|] eqn:Hpv; [|discriminate].
    injection Hrep as <-. eexists; split; [reflexivity|]. right.
    exists i, p, v. repeat split; try assumption.
    apply lookup_lt_Some in Hi. exact Hi.
  - destruct (violation_of_message c r e Hr Hv) as (msg & -> & Hin). eauto.
Qed.

Lemma string_of_uint_digits d : all_digits (NilEmpty.string_of_uint d) = true.
Proof. induction d; cbn [NilEmpty.string_of_uint all_digits]; try reflexivity; exact IHd. Qed.

Lemma fmt_d_digits n : all_digits (fmt_d n) = true.
Proof. apply string_of_uint_digits. Qed.

Lemma fmt_d_inj i j : fmt_d i = fmt_d j -> i = j.
Proof.
  unfold fmt_d. intros Heq.
  assert (Hu : Nat.to_uint i = Nat.to_uint j).
  { apply (f_equal NilEmpty.uint_of_string) in Heq.
    rewrite !NilEmpty.usu in Heq. congruence. }
  rewrite <- (DecimalNat.Unsigned.of_to i), <- (DecimalNat.Unsigned.of_to j), Hu.
  reflexivity.
Qed.

(** Two strings of digits, each followed by the same character that is not a
    digit and by anything: the digits and the rest are determined by the
    whole. *)
Lemma digits_sep_inj sep a :
  is_digit sep = false ->
  forall b s t,
    all_digits a = true -> all_digits b = true ->
    (a ++ String sep s)%string = (b ++ String sep t)%string -> a = b /\ s = t.
Proof.
  intros Hsep.
  induction a as [|x a IH]; intros [|y b] s t Ha Hb Heq; cbn [String.append all_digits] in *.
  - injection Heq as ->. auto.
  - injection Heq as <- _. rewrite Hsep in Hb. discriminate Hb.
  - injection Heq as -> _. rewrite Hsep in Ha. discriminate Ha.
  - injection Heq as -> Heq.
    apply andb_true_iff in Ha as [_ Ha]. apply andb_true_iff in Hb as [_ Hb].
    destruct (IH b s t Ha Hb Heq) as [-> ->]. auto.
Qed.

Lemma pool_message_inj i j v u : pool_message i v = pool_message j u -> i = j /\ v = u.
Proof.
  unfold pool_message. intros Heq.
  injection Heq as Heq. cbn [String.append] in Heq.
  destruct v, u;
    (apply digits_sep_inj in Heq as [Hd Hs]; [|reflexivity|apply fmt_d_digits..]);
    (split; [exact (fmt_d_inj _ _ Hd)|]); try reflexivity; discriminate Hs.
Qed.

Lemma pool_message_not_cluster i v : ~ In (pool_message i v) cluster_messages.
Proof.
  unfold pool_message, cluster_messages. cbn [In].
  intros H; repeat destruct H as [H|H]; try discriminate H. exact H.
Qed.

(** X4. The violation reported for a node pool tells which pool and what is
    wrong with it: the same error for two pools means the same index and the
    same kind of violation, and it is never one of the cluster-level
    messages. *)
Theorem violation_identifies_pool i p e :
  checkNodePool i p = Some e ->
  (forall j q, checkNodePool j q = Some e -> i = j /\ pool_violation p = pool_violation q) /\
  (forall msg, In msg cluster_messages -> e <> errorString msg).
Proof.
  rewrite checkNodePool_message.
  destruct (pool_violation p) as [v|]; [|discriminate].
  intros H1. split.
  - intros j q. rewrite checkNodePool_message.
    destruct (pool_violation q) as [u|]; [|discriminate].
    intros H2. rewrite <- H1 in H2.
    assert (Heq : pool_message j u = pool_message i v) by congruence.
    apply pool_message_inj in Heq as [-> ->]. auto.
  - intros msg Hin Heq. rewrite Heq in H1.
    assert (Hm : pool_message i v = msg) by congruence.
    rewrite <- Hm in Hin. exact (pool_message_not_cluster i v Hin).
Qed.

(** The predicate as a function of the two lookups, a nil map read as
    empty. *)
Lemma needs_lookups c :
  needsSecurityCompliance c =
  match read (Labels (Spec c)) !! "compliance" with
  | Some v => String.eqb v "security"
  | None => false
  end ||
  match read (Annotations (Meta c)) !! "gke.cattle.io/security-compliance" with
  | Some v => String.eqb v "true"
  | None => false
  end.
Proof.
  unfold needsSecurityCompliance, read.
  destruct (Labels (Spec c)) as [labels|], (Annotations (Meta c)) as [ann|];
    rewrite ?lookup_empty;
    repeat match goal with
           | |- context [match ?m !! ?k with _ => _ end] => destruct (m !! k)
           | |- context [String.eqb ?a ?b] => destruct (String.eqb a b)
           end; reflexivity.
Qed.

(** X5. The predicate reads two keys and nothing else: inserting, changing or
    deleting any other label or annotation leaves it unchanged, and an empty
    map counts as a nil map; setting the label "compliance" to "security"
    makes it true, and deleting both keys makes it false. *)
Theorem needsSecurityCompliance_other_keys (c : GKEClusterConfig) :
  (forall k v, k <> "compliance" ->
     needsSecurityCompliance (withLabels (Some (<[k:=v]> (read (Labels (Spec c))))) c) =
     needsSecurityCompliance c /\
     needsSecurityCompliance (withLabels (Some (delete k (read (Labels (Spec c))))) c) =
     needsSecurityCompliance c) /\
  (forall k v, k <> "gke.cattle.io/security-compliance" ->
     needsSecurityCompliance
       (withAnnotations (Some (<[k:=v]> (read (Annotations (Meta c))))) c) =
     needsSecurityCompliance c /\
     needsSecurityCompliance
       (withAnnotations (Some (delete k (read (Annotations (Meta c))))) c) =
     needsSecurityCompliance c) /\
  needsSecurityCompliance (withLabels (Some ∅) (withAnnotations (Some ∅) c)) =
  needsSecurityCompliance (withLabels None (withAnnotations None c)) /\
  needsSecurityCompliance
    (withLabels (Some (<["compliance":="security"]> (read (Labels (Spec c))))) c) = true /\
  needsSecurityCompliance
    (withLabels (Some (delete "compliance" (read (Labels (Spec c)))))
       (withAnnotations
          (Some (delete "gke.cattle.io/security-compliance" (read (Annotations (Meta c)))))
          c)) = false.
Proof.
  repeat split; intros; rewrite ?needs_lookups;
    cbn [withLabels withAnnotations Spec Meta Labels Annotations read];
    rewrite ?lookup_insert_ne, ?lookup_delete_ne, ?lookup_insert_eq, ?lookup_delete_eq,
      ?lookup_empty by assumption; reflexivity.
Qed.

End ValidatorFacts.

(** ** The deletes: traces, results, time *)


Lemma sleeps_app t1 t2 : sleeps (t1 ++ t2) = sleeps t1 ++ sleeps t2.
Proof.
  induction t1 as [|[] t1 IH]; cbn [app sleeps]; rewrite ?IH; reflexivity.
Qed.

Lemma total_slept_app t1 t2 : total_slept (t1 ++ t2) = (total_slept t1 + total_slept t2)%Z.
Proof.
  unfold total_slept. rewrite sleeps_app.
  induction (sleeps t1) as [|d l IH]; cbn [app fold_right]; [reflexivity | lia].
Qed.

Section TraceFacts.
Context {pkg : Package} {Env : Type} {rt : Runtime Env}.
Import wait.

Ltac run_closure :=
  unfold RemoveCluster_closure, RemoveCluster_condition, bind, ret,
    logrus.Infof, logrus.Errorf, emit, ctxDone, gkeClient_ClusterDelete;
  cbn [fst snd env trace].



End TraceFacts.

Lemma prefix_app sub : forall s, String.prefix sub s = true <-> exists post, s = (sub ++ post)%string.
Proof.
  induction sub as [|a sub IH]; intros s.
  - split; [intros _; exists s; reflexivity | intros _; destruct s; reflexivity].
  - destruct s as [|b s]; simpl.
    + split; [discriminate | intros [post [=]]].
    + destruct (Ascii.ascii_dec a b) as [->|Hne].
      * split.
        -- intros Hp. apply IH in Hp as [post ->]. exists post. reflexivity.
        -- intros [post [= Hp]]. apply IH. eauto.
      * split; [discriminate | intros [post Hp]; injection Hp as Hab _; congruence].
Qed.

(** [Contains] is the occurrence of [substr] somewhere in [s]. *)
Lemma Contains_spec s substr :
  Contains s substr = true <-> exists pre post, s = (pre ++ substr ++ post)%string.
Proof.
  split.
  - induction s as [|a s IH]; cbn [Contains]; rewrite orb_true_iff; intros [Hp|Hc].
    + apply prefix_app in Hp as [post ->]. exists ""%string, post. reflexivity.
    + discriminate.
    + apply prefix_app in Hp as [post ->]. exists ""%string, post. reflexivity.
    + destruct (IH Hc) as (pre & post & ->). exists (String a pre), post. reflexivity.
  - intros (pre & post & ->). induction pre as [|a pre IH].
    + change (Contains (substr ++ post)%string substr = true).
      assert (Hp : String.prefix substr (substr ++ post)%string = true)
        by (apply prefix_app; eauto).
      revert Hp. generalize (substr ++ post)%string. intros s Hp.
      destruct s; cbn [Contains]; rewrite Hp; reflexivity.
    + change (Contains (String a (pre ++ substr ++ post)%string) substr = true).
      cbn [Contains]. rewrite IH. apply orb_true_r.
Qed.

Section MoreDeleteFacts.
Context {pkg : Package} {Env : Type} {rt : Runtime Env}.
Import wait.

Lemma from_after_busy rrn :
  forall n b a (w : World Env) e',
    (Z.of_nat n < Steps b)%Z ->
    after_busy rrn (Duration b) n (env w) = Some e' ->
    exists w1,
      RemoveCluster_from b rrn (a, w) =
      RemoveCluster_from {| Duration := Duration b; Steps := Steps b - Z.of_nat n |} rrn
        (n + a, w1) /\
      env w1 = e' /\
      remote_calls (trace w1) = remote_calls (trace w) + n /\
      sleeps (trace w1) = repeat (Duration b) n ++ sleeps (trace w).
Proof.
  induction n as [|n IH]; intros b a w e' Hb Hab.
  - cbn [after_busy] in Hab. injection Hab as <-. exists w.
    replace (Steps b - Z.of_nat 0)%Z with (Steps b) by lia.
    destruct b. cbn [Duration Steps repeat app Nat.add]. repeat split; lia.
  - cbn [after_busy] in Hab.
    destruct (ctxErr (env w)) eqn:Hc; [discriminate|].
    destruct (classify (fst (ClusterDelete rrn (env w)))) eqn:Hcls; try discriminate.
    destruct (from_busy b rrn a w ltac:(lia) Hc Hcls) as (w1 & _ & He & Hn & Hs & ->).
    destruct (IH {| Duration := Duration b; Steps := Steps b - 1 |} (S a)
                 (time_Sleep (Duration b) w1) e') as (w2 & -> & He2 & Hn2 & Hs2).
    { cbn [Steps]. lia. }
    { cbn [time_Sleep env Duration]. rewrite He. exact Hab. }
    exists w2. cbn [Duration Steps] in *.
    replace (Steps b - 1 - Z.of_nat n)%Z with (Steps b - Z.of_nat (S n))%Z by lia.
    replace (n + S a) with (S n + a) by lia.
    split; [reflexivity|]. split; [exact He2|].
    rewrite Hn2, Hs2. cbn [time_Sleep trace remote_calls sleeps]. rewrite Hn, Hs.
    split; [lia | apply repeat_snoc].
Qed.
End MoreDeleteFacts.


Section DeleteExtras.
Context {pkg : Package} {Env : Type} {rt : Runtime Env}.
Import wait.





(** X9. Busy answers are absorbed: after N < 12 attempts that found the
    context live and the cluster busy, the result is that of the next
    attempt.  If the context is done by then, its error is returned after
    exactly N remote calls; if the answer is not busy, the outcome of that
    answer is returned after exactly N + 1 remote calls; in both cases after
    N sleeps of 30 seconds. *)
Theorem RemoveCluster_busy_prefix_absorbed config (w : World Env) (N : nat) (e' : Env) :
  N < 12 ->
  after_busy (clusterRRN_of config) (30 * Second)%Z N (env w) = Some e' ->
  (forall cerr, ctxErr e' = Some cerr ->
     exists w',
       RemoveCluster config w = Some (Some cerr, w') /\
       env w' = e' /\
       remote_calls (trace w') = remote_calls (trace w) + N /\
       sleeps (trace w') = repeat (30 * Second)%Z N ++ sleeps (trace w)) /\
  (ctxErr e' = None ->
   classify (fst (ClusterDelete (clusterRRN_of config) e')) <> Busy ->
     exists w',
       RemoveCluster config w =
         Some (snd (cluster_outcome (fst (ClusterDelete (clusterRRN_of config) e'))), w') /\
       env w' = snd (ClusterDelete (clusterRRN_of config) e') /\
       remote_calls (trace w') = remote_calls (trace w) + N + 1 /\
       sleeps (trace w') = repeat (30 * Second)%Z N ++ sleeps (trace w)).
Proof.
  intros HN Hab.
  destruct (RemoveCluster_start config w) as (w0 & -> & He0 & Hn0 & Hs0).
  destruct (from_after_busy (clusterRRN_of config) N backoff 0 w0 e') as (w1 & -> & He1 & Hn1 & Hs1).
  { change (Steps backoff) with 12%Z. lia. }
  { rewrite He0. exact Hab. }
  change (Duration backoff) with (30 * Second)%Z in *.
  change (Steps backoff) with 12%Z.
  rewrite <- Hn0, <- Hs0, <- Hn1, <- Hs1. split.
  - intros cerr Hc. rewrite <- He1 in Hc.
    destruct (from_cancelled {| Duration := (30 * Second)%Z; Steps := 12 - Z.of_nat N |}
                (clusterRRN_of config) (N + 0) w1 cerr) as (w' & Hr & He & Hn & Hs).
    { cbn [Steps]. lia. }
    { exact Hc. }
    exists w'. rewrite Hr, He, Hn, Hs, He1. auto.
  - intros Hc Hcls. rewrite <- He1 in Hc, Hcls |- *.
    destruct (from_terminal {| Duration := (30 * Second)%Z; Steps := 12 - Z.of_nat N |}
                (clusterRRN_of config) (N + 0) w1) as (w' & Hr & He & Hn & Hs).
    { cbn [Steps]. lia. }
    { exact Hc. }
    { exact Hcls. }
    exists w'. rewrite Hr, He, Hn, Hs. repeat split. lia.
Qed.

(** X10. Status and error of [RemoveNodePool] go together: a non-nil error
    always comes with NotChanged and is the remote client's own error, one
    that is neither busy nor not-found; Changed is returned exactly when the
    remote call succeeded, Retry exactly on a busy answer. *)
Theorem RemoveNodePool_status_error_consistent config nodePoolName (w : World Env) :
  let answer := fst (NodePoolDelete (nodePoolRRN_of config nodePoolName) (env w)) in
  let status := fst (fst (RemoveNodePool config nodePoolName w)) in
  let err := snd (fst (RemoveNodePool config nodePoolName w)) in
  (forall e, err = Some e ->
     status = NotChanged /\ answer = Some e /\ classify answer = Fatal) /\
  (status = Changed <-> answer = None) /\
  (status = Retry <-> classify answer = Busy) /\
  (status = NotChanged <-> classify answer = Absent \/ classify answer = Fatal).
Proof.
  cbn zeta. rewrite RemoveNodePool_run. cbn [fst snd]. unfold pool_outcome.
  generalize (fst (NodePoolDelete (nodePoolRRN_of config nodePoolName) (env w))).
  intros answer.
  assert (Hnone : classify answer = NoError <-> answer = None).
  { unfold classify. destruct answer as [e|]; [|tauto].
    destruct (Contains (Error e) errWait); [|destruct (Contains (Error e) errNotFound)];
      split; discriminate. }
  destruct (classify answer) eqn:Hcls; cbn [fst snd].
  - split; [discriminate|]. split; [tauto|].
    split; [split; discriminate|]. split; [discriminate | intros [|]; discriminate].
  - split; [discriminate|]. split; [rewrite <- Hnone; split; discriminate|].
    split; [tauto|]. split; [discriminate | intros [|]; discriminate].
  - split; [discriminate|]. split; [rewrite <- Hnone; split; discriminate|].
    split; [split; discriminate|]. tauto.
  - split; [intros e ->; auto|]. split; [rewrite <- Hnone; split; discriminate|].
    split; [split; discriminate|]. tauto.
Qed.

(** X11. The markers are looked for anywhere in the message: an error is busy
    exactly when its message is some text, the busy marker, and some more
    text, and not-found exactly when the same holds of the not-found marker
    and not of the busy one.  So an error that wraps a busy message in more
    text still makes [RemoveNodePool] return (Retry, nil). *)
Theorem classify_by_substring (e : error) :
  (classify (Some e) = Busy <->
   exists pre post, Error e = (pre ++ errWait ++ post)%string) /\
  (classify (Some e) = Absent <->
   (~ exists pre post, Error e = (pre ++ errWait ++ post)%string) /\
   exists pre post, Error e = (pre ++ errNotFound ++ post)%string) /\
  (forall config nodePoolName (w : World Env),
     fst (NodePoolDelete (nodePoolRRN_of config nodePoolName) (env w)) = Some e ->
     (exists pre post, Error e = (pre ++ errWait ++ post)%string) ->
     fst (RemoveNodePool config nodePoolName w) = (Retry, None)).
Proof.
  assert (Hbusy : classify (Some e) = Busy <->
                  exists pre post, Error e = (pre ++ errWait ++ post)%string).
  { rewrite <- Contains_spec. unfold classify.
    destruct (Contains (Error e) errWait); [tauto|].
    destruct (Contains (Error e) errNotFound); split; discriminate. }
  split; [exact Hbusy|]. split.
  - rewrite <- !Contains_spec. unfold classify.
    destruct (Contains (Error e) errWait).
    + split; [discriminate | intros [Hn _]; exfalso; apply Hn; reflexivity].
    + destruct (Contains (Error e) errNotFound).
      * split; [intros _; split; [discriminate | reflexivity] | reflexivity].
      * split; [discriminate | intros [_ Hf]; discriminate Hf].
  - intros config nodePoolName w Hans Hsub. rewrite RemoveNodePool_run. cbn [fst].
    unfold pool_outcome. rewrite Hans. apply Hbusy in Hsub. rewrite Hsub. reflexivity.
Qed.

End DeleteExtras.

(** ** The further properties on concrete runs *)

Section ExtraRuns.
Import Compliance Checklist Update Messages ValidatorFacts Example.
#[local] Existing Instance Example.package.
#[local] Existing Instance Example.scripted.

Lemma validate_message_catalogue_witness :
  exists msg,
    errorString "node pool 1 config cannot be nil for security compliance" = errorString msg /\
    (In msg cluster_messages \/
     exists i p v,
       i < 2 /\
       [defaultPool; {| Name := None; Config := None |}] !! i = Some p /\
       pool_violation p = Some v /\ msg = pool_message i v).
Proof.
  exact (validate_message_catalogue
           (securityConfig (Some false) (Some privateNodes) (Some encrypted)
              [defaultPool; {| Name := None; Config := None |}])
           (errorString "node pool 1 config cannot be nil for security compliance")
           eq_refl).
Defined.

Lemma violation_identifies_pool_witness :
  3 = 3 /\
  pool_violation {| Name := None; Config := None |} =
  pool_violation {| Name := Some "spare"; Config := None |}.
Proof.
  apply (proj1 (violation_identifies_pool 3 {| Name := None; Config := None |}
                  (errorString "node pool 3 config cannot be nil for security compliance")
                  eq_refl) 3 {| Name := Some "spare"; Config := None |}).
  reflexivity.
Defined.

Lemma needsSecurityCompliance_other_keys_witness :
  needsSecurityCompliance
    (withLabels (Some (<["team":="infra"]> (read (Labels (Spec createValidSecurityConfig)))))
       createValidSecurityConfig)
  = needsSecurityCompliance createValidSecurityConfig.
Proof.
  apply (proj1 (needsSecurityCompliance_other_keys createValidSecurityConfig) "team" "infra").
  discriminate.
Defined.


Lemma RemoveCluster_busy_prefix_absorbed_witness :
  exists w',
    RemoveCluster emptyConfig
      (start {| answers := [Some busyErr; Some busyErr; Some fatalErr]; otherwise := None;
                cancelled := None |})
    = Some (Some fatalErr, w') /\
    remote_calls (trace w') = 3.
Proof.
  destruct (proj2 (RemoveCluster_busy_prefix_absorbed emptyConfig
              (start {| answers := [Some busyErr; Some busyErr; Some fatalErr];
                        otherwise := None; cancelled := None |}) 2
              {| answers := [Some fatalErr]; otherwise := None; cancelled := None |}
              ltac:(lia) eq_refl) eq_refl) as (w' & Hr & _ & Hn & _).
  - discriminate.
  - exists w'. split; [exact Hr | exact Hn].
Defined.

Lemma RemoveNodePool_status_error_consistent_witness :
  fst (fst (RemoveNodePool emptyConfig "pool"
              (start {| answers := [Some fatalErr]; otherwise := None; cancelled := None |})))
  = NotChanged.
Proof.
  pose proof (RemoveNodePool_status_error_consistent emptyConfig "pool"
                (start {| answers := [Some fatalErr]; otherwise := None; cancelled := None |}))
    as Hspec.
  cbn zeta in Hspec. destruct Hspec as (Herr & _).
  exact (proj1 (Herr fatalErr eq_refl)).
Defined.

Lemma classify_by_substring_witness :
  classify (Some (errorString
    "rpc error: Please wait and try again once it is done (operation-1)")) = Busy.
Proof.
  apply (proj1 (classify_by_substring (Env := Script) _)).
  exists "rpc error: ", " (operation-1)". reflexivity.
Defined.

End ExtraRuns.
